(** * Tado X integration: config flow, entry setup and offset entities

  A shallow embedding of [custom_components/tado_x/__init__.py],
  [config_flow.py] and [number.py].  The vendor client ([api.py]), the
  constants ([const.py]) and the coordinator ([coordinator.py]) are used
  through interfaces; the host platform is a small state record together
  with a trace of the calls made into it. *)

From Stdlib Require Import ZArith.
From stdpp Require Import base strings gmap list pretty.

Open Scope string_scope.
Open Scope Z_scope.

(** ** Python values and exceptions *)

(** The parts of the Python runtime that the integration only passes on:
  floats are stored and forwarded, never computed with; datetimes are
  parsed from and printed to ISO strings. *)
Class PyRuntime := {
  float : Type;
  float_truthy : float -> bool;
  float_str : float -> string;
  float_eqb : float -> float -> bool;
  float_eq_int : float -> Z -> bool;
  datetime : Type;
  isoformat : datetime -> string;
  fromisoformat : string -> option datetime;
  }.

Inductive pyval `{PyRuntime} : Type :=
  | VNone
  | VBool (b : bool)
  | VInt (z : Z)
  | VFloat (f : float)
  | VStr (s : string).

Abbreviation dict := (gmap string pyval).

(** [bool(v)] *)
Definition truthy `{PyRuntime} (v : pyval) : bool :=
  match v with
  | VNone => false
  | VBool b => b
  | VInt z => negb (z =? 0)
  | VFloat f => float_truthy f
  | VStr s => negb (String.eqb s "")
  end.

(** [str(v)], as an f-string or [%s] renders it *)
Definition py_str `{PyRuntime} (v : pyval) : string :=
  match v with
  | VNone => "None"
  | VBool true => "True"
  | VBool false => "False"
  | VInt z => pretty z
  | VFloat f => float_str f
  | VStr s => s
  end.

(** [v == "literal"] *)
Definition eq_str `{PyRuntime} (v : pyval) (lit : string) : bool :=
  match v with
  | VStr s => String.eqb s lit
  | _ => false
  end.

(** [a == b] on values; a bool counts as the int 0 or 1 *)
Definition py_eq `{PyRuntime} (a b : pyval) : bool :=
  let num v := match v with
             | VBool b => Some (inl (if b then 1 else 0))
             | VInt z => Some (inl z)
             | VFloat f => Some (inr f)
             | _ => None
             end in
  match a, b with
  | VNone, VNone => true
  | VStr s, VStr t => String.eqb s t
  | _, _ =>
    match num a, num b with
    | Some (inl x), Some (inl y) => x =? y
    | Some (inl x), Some (inr g) => float_eq_int g x
    | Some (inr f), Some (inl y) => float_eq_int f y
    | Some (inr f), Some (inr g) => float_eqb f g
    | _, _ => false
    end
  end.

(** [a or b] *)
Definition py_or `{PyRuntime} (a b : pyval) : pyval :=
  if truthy a then a else b.

(** [d.get(k)] and [d.get(k, default)] *)
Definition dict_get `{PyRuntime} (d : dict) (k : string) : pyval :=
  default VNone (d !! k).

Definition dict_get_or `{PyRuntime} (d : dict) (k : string) (dflt : pyval) : pyval :=
  default dflt (d !! k).

(** An exception value carries the method resolution order of its class
  (the class itself first) and its message; [raise ... from err] keeps
  [err] as the cause. *)
Inductive exn : Type :=
  | Exn (mro : list string) (msg : string)
  | ExnFrom (mro : list string) (msg : string) (cause : exn).

Definition exn_mro (e : exn) : list string :=
  match e with Exn m _ | ExnFrom m _ _ => m end.
Definition exn_msg (e : exn) : string :=
  match e with Exn _ s | ExnFrom _ s _ => s end.
Definition exn_cause (e : exn) : option exn :=
  match e with Exn _ _ => None | ExnFrom _ _ c => Some c end.

(** [isinstance(e, cls)], the test an [except cls] clause makes *)
Definition isinstance (e : exn) (cls : string) : bool :=
  bool_decide (cls ∈ exn_mro e).

Definition KeyError (k : string) : exn :=
  Exn ["KeyError"; "LookupError"; "Exception"; "BaseException"] k.
Definition TypeError (m : string) : exn :=
  Exn ["TypeError"; "Exception"; "BaseException"] m.
Definition AttributeError (m : string) : exn :=
  Exn ["AttributeError"; "Exception"; "BaseException"] m.
Definition UnknownEntry (m : string) : exn :=
  Exn ["UnknownEntry"; "ConfigError"; "HomeAssistantError"; "Exception";
     "BaseException"] m.
Definition ConfigEntryAuthFailed (m : string) (from : exn) : exn :=
  ExnFrom ["ConfigEntryAuthFailed"; "IntegrationError"; "HomeAssistantError";
         "Exception"; "BaseException"] m from.
Definition ConfigEntryNotReady (m : string) (from : exn) : exn :=
  ExnFrom ["ConfigEntryNotReady"; "IntegrationError"; "HomeAssistantError";
         "Exception"; "BaseException"] m from.

Inductive outcome (A : Type) : Type :=
  | Ok (a : A)
  | Raise (e : exn).
Arguments Ok {A} a.
Arguments Raise {A} e.

(** ** Interfaces of the modules used by the three files *)

(** [const.py] *)
Class ConstModule `{PyRuntime} := {
  DOMAIN : string;
  PLATFORMS : list string;
  CONF_ACCESS_TOKEN : string;
  CONF_REFRESH_TOKEN : string;
  CONF_TOKEN_EXPIRY : string;
  CONF_HOME_ID : string;
  CONF_HOME_NAME : string;
  CONF_SCAN_INTERVAL : string;
  CONF_GEOFENCING_ENABLED : string;
  CONF_MIN_TEMP : string;
  CONF_MAX_TEMP : string;
  DEFAULT_SCAN_INTERVAL : pyval;
  MIN_TEMP : pyval;
  MAX_TEMP : pyval;
  }.

(** [api.py]: the client object.  A method answers with a result or an
  exception and leaves the object in a new state; the session the object
  was built on decides what the network answers. *)
Class ApiModule `{PyRuntime} := {
  session : Type;
  TadoXApi : Type;
  new_TadoXApi : session -> pyval -> pyval -> option datetime -> TadoXApi;
  access_token : TadoXApi -> pyval;
  refresh_token : TadoXApi -> pyval;
  token_expiry : TadoXApi -> option datetime;
  start_device_auth : TadoXApi -> outcome dict * TadoXApi;
  poll_for_token : TadoXApi -> pyval -> Z -> Z -> outcome bool * TadoXApi;
  get_homes : TadoXApi -> outcome (list dict) * TadoXApi;
  refresh_access_token : TadoXApi -> outcome unit * TadoXApi;
  set_device_temperature_offset :
  TadoXApi -> string -> float -> outcome unit * TadoXApi;
  }.

(** [coordinator.py]: a device as the coordinator publishes it. *)
Record TadoXDevice `{PyRuntime} := {
  serial_number : string;
  device_type : pyval;
  connection_state : pyval;
  temperature_offset : option float;
  }.

(** [coordinator.data]: [devices] is a dict, kept in insertion order. *)
Record TadoXData `{PyRuntime} := {
  devices : list (string * TadoXDevice);
  }.

Record TadoXDataUpdateCoordinator `{ApiModule} := {
  api : TadoXApi;
  home_id : pyval;
  home_name : pyval;
  scan_interval : pyval;
  geofencing_enabled : pyval;
  min_temp : pyval;
  max_temp : pyval;
  coordinator_data : option TadoXData;
  }.

(** What the two refresh entry points of the coordinator do to it. *)
Class CoordinatorModule `{ApiModule} := {
  async_config_entry_first_refresh :
  TadoXDataUpdateCoordinator -> outcome unit * TadoXDataUpdateCoordinator;
  async_request_refresh :
  TadoXDataUpdateCoordinator -> outcome unit * TadoXDataUpdateCoordinator;
  }.

(** ** The host *)

Record ConfigEntry `{PyRuntime} := {
  entry_id : string;
  unique_id : option string;
  title : pyval;
  data : dict;
  }.

(** A value kept under [hass.data[DOMAIN]] *)
Inductive hass_val `{ApiModule} : Type :=
  | HYaml (cfg : dict)
  | HCoordinator (c : TadoXDataUpdateCoordinator).

Record HomeAssistant `{ApiModule} := {
  client_session : session;
  hass_data : gmap string (gmap string hass_val);
  config_entries : list ConfigEntry;
  }.

(** Calls into the client, the host and the logger, in the order made;
  [raised] is the exception a call ended with, if any. *)
Inductive event `{PyRuntime} : Type :=
  | EvLog (level : string) (message : string)
  | EvApi (method : string) (args : list pyval) (raised : option exn)
  | EvUpdateEntry (eid : string) (new_data : dict)
  | EvScheduleReload (eid : string)
  | EvDeviceRegistry (config_entry_id : string) (identifier : string * string)
  (name : pyval) (manufacturer model : string)
  | EvCreateCoordinator (hid : pyval)
  | EvFirstRefresh (raised : option exn)
  | EvRequestRefresh (raised : option exn)
  | EvForwardEntrySetups (eid : string) (platforms : list string)
  (raised : option exn).

(** Platform loading is the host's: forwarding an entry to its platforms
  may fail. *)
Class HostModule `{ApiModule} := {
  async_forward_entry_setups :
  HomeAssistant -> ConfigEntry -> list string -> outcome unit;
  }.

(** ** A state, exception and trace monad

  A computation runs on a state [S] and lists the events it made; what
  it wrote before raising stays written. *)
Definition M `{PyRuntime} (S A : Type) : Type :=
  S -> outcome A * S * list event.

Section Monad.
Context `{PyRuntime} {S : Type}.

Definition ret {A} (a : A) : M S A := fun s => (Ok a, s, []).
Definition raise {A} (e : exn) : M S A := fun s => (Raise e, s, []).
Definition bind {A B} (m : M S A) (k : A -> M S B) : M S B :=
  fun s => match m s with
           | (Ok a, s', t) =>
               let '(r, s'', t') := k a s' in (r, s'', (t ++ t')%list)
           | (Raise e, s', t) => (Raise e, s', t)
           end.
(** [try: body / except: handler]; the handler re-raises what its
    clauses do not name *)
Definition try_except {A} (body : M S A) (handler : exn -> M S A) : M S A :=
  fun s => match body s with
           | (Ok a, s', t) => (Ok a, s', t)
           | (Raise e, s', t) =>
               let '(r, s'', t') := handler e s' in (r, s'', (t ++ t')%list)
           end.
Definition get : M S S := fun s => (Ok s, s, []).
Definition put (s : S) : M S unit := fun _ => (Ok tt, s, []).
Definition emit (ev : event) : M S unit := fun s => (Ok tt, s, [ev]).
Definition log (level message : string) : M S unit :=
  emit (EvLog level message).
End Monad.

Declare Scope py_scope.
Delimit Scope py_scope with py.
Notation "x <- m ;; k" := (bind m (fun x => k))
  (at level 100, m at next level, right associativity) : py_scope.
Notation "m ;;; k" := (bind m (fun _ => k))
  (at level 100, right associativity) : py_scope.
Open Scope py_scope.

Definition raised_of {A} (o : outcome A) : option exn :=
  match o with Ok _ => None | Raise e => Some e end.

(** [d[k]] *)
Definition subscript `{PyRuntime} {S} (d : dict) (k : string) : M S pyval :=
  match d !! k with
  | Some v => ret v
  | None => raise (KeyError k)
  end.

(** [api.token_expiry.isoformat() if api.token_expiry else None] *)
Definition token_expiry_iso `{ApiModule} (a : TadoXApi) : pyval :=
  match token_expiry a with
  | Some t => VStr (isoformat t)
  | None => VNone
  end.

(** [entry.data = d] on the stored entry *)
Definition with_data `{PyRuntime} (d : dict) (e : ConfigEntry) : ConfigEntry :=
  {| entry_id := entry_id e; unique_id := unique_id e;
   title := title e; data := d |}.

Definition set_hass_data `{ApiModule}
  (f : gmap string (gmap string hass_val) ->
       gmap string (gmap string hass_val))
  (h : HomeAssistant) : HomeAssistant :=
  {| client_session := client_session h;
   hass_data := f (hass_data h);
   config_entries := config_entries h |}.

Definition set_config_entries `{ApiModule}
  (f : list ConfigEntry -> list ConfigEntry)
  (h : HomeAssistant) : HomeAssistant :=
  {| client_session := client_session h;
   hass_data := hass_data h;
   config_entries := f (config_entries h) |}.

(** The host's [async_update_entry(entry, data=d)] on its store: the entry
  with [entry]'s id gets the new data. *)
Definition store_update `{ApiModule} (eid : string) (d : dict)
  (h : HomeAssistant) : HomeAssistant :=
  set_config_entries
  (fmap (fun e => if String.eqb (entry_id e) eid then with_data d e else e))
  h.

(** ** [__init__.py] *)
Module Init.
Section Init.
Context `{CM : CoordinatorModule} {KM : ConstModule} {HM : HostModule}.

(** [hass.data.setdefault(DOMAIN, {})] *)
Definition setdefault_domain (h : HomeAssistant) : HomeAssistant :=
  match hass_data h !! DOMAIN with
  | Some _ => h
  | None => set_hass_data (insert DOMAIN ∅) h
  end.

(** [hass.data[DOMAIN][k] = v] *)
Definition domain_store (k : string) (v : hass_val)
    : M HomeAssistant unit :=
  h <- get ;;
  match hass_data h !! DOMAIN with
  | Some dd => put (set_hass_data (insert DOMAIN (<[k := v]> dd)) h)
  | None => raise (KeyError DOMAIN)
  end.

Definition async_setup (config : gmap string dict) : M HomeAssistant bool :=
  h <- get ;;
  put (setdefault_domain h) ;;;
  match config !! DOMAIN with
  | Some cfg => domain_store "yaml_config" (HYaml cfg)
  | None => ret tt
  end ;;;
  ret true.

(** [hass.config_entries.async_update_entry(entry, data=d)]: the stored
    entry and the caller's [entry] are one object. *)
Definition async_update_entry (entry : ConfigEntry) (d : dict)
    : M HomeAssistant ConfigEntry :=
  h <- get ;;
  put (store_update (entry_id entry) d h) ;;;
  emit (EvUpdateEntry (entry_id entry) d) ;;;
  ret (with_data d entry).

(** A call of a method of the local [api] object *)
Definition api_call {A} (method : string) (args : list pyval)
    (r : outcome A * TadoXApi) : M HomeAssistant (A * TadoXApi) :=
  emit (EvApi method args (raised_of r.1)) ;;;
  match r.1 with
  | Ok a => ret (a, r.2)
  | Raise e => raise e
  end.

(** The client object built from the stored tokens *)
Definition entry_api (session : session) (entry : ConfigEntry) : TadoXApi :=
  (* Parse token expiry *)
  let token_expiry :=
    if truthy (dict_get (data entry) CONF_TOKEN_EXPIRY) then
      match data entry !! CONF_TOKEN_EXPIRY with
      | Some (VStr s) => fromisoformat s   (* ValueError: pass *)
      | _ => None                          (* TypeError: pass *)
      end
    else None in
  new_TadoXApi session
    (dict_get (data entry) CONF_ACCESS_TOKEN)
    (dict_get (data entry) CONF_REFRESH_TOKEN)
    token_expiry.

Definition async_setup_entry (entry : ConfigEntry) : M HomeAssistant bool :=
  h <- get ;;
  let session := client_session h in
  let api := entry_api session entry in
  home_id <- subscript (data entry) CONF_HOME_ID ;;
  let home_name := dict_get_or (data entry) CONF_HOME_NAME
                     (VStr ("Tado Home " +:+ py_str home_id)) in
  (* Test the connection and refresh token if needed *)
  refreshed <-
    try_except
      (r <- api_call "refresh_access_token" []
              (refresh_access_token api) ;;
       let api := r.2 in
       (* Update stored tokens *)
       entry <- async_update_entry entry
                  (<[CONF_TOKEN_EXPIRY := token_expiry_iso api]>
                     (<[CONF_REFRESH_TOKEN := refresh_token api]>
                        (<[CONF_ACCESS_TOKEN := access_token api]>
                           (data entry)))) ;;
       ret (api, entry))
      (fun err =>
         if isinstance err "TadoXAuthError" then
           log "error" ("Authentication failed: " +:+ exn_msg err) ;;;
           raise (ConfigEntryAuthFailed
                    ("Authentication failed: " +:+ exn_msg err) err)
         else raise err) ;;
  let api := refreshed.1 in
  let entry := refreshed.2 in
  (* Get scan interval - YAML config overrides stored value *)
  h <- get ;;
  yaml_config <-
    match hass_data h !! DOMAIN with
    | None => raise (KeyError DOMAIN)
    | Some dd =>
        match dd !! "yaml_config" with
        | None => ret ∅
        | Some (HYaml cfg) => ret cfg
        | Some (HCoordinator _) =>
            raise (AttributeError "object has no attribute 'get'")
        end
    end ;;
  let scan_interval :=
    dict_get_or yaml_config CONF_SCAN_INTERVAL
      (dict_get_or (data entry) CONF_SCAN_INTERVAL DEFAULT_SCAN_INTERVAL) in
  log "info" ("Using scan interval: " +:+ py_str scan_interval
              +:+ " seconds") ;;;
  (* Ensure home device exists before platforms/entities reference
     via_device *)
  emit (EvDeviceRegistry (entry_id entry) (DOMAIN, py_str home_id)
          home_name "Tado" "Tado X Home") ;;;
  (* Create coordinator *)
  emit (EvCreateCoordinator home_id) ;;;
  let coordinator :=
    {| api := api; home_id := home_id; home_name := home_name;
       scan_interval := scan_interval;
       geofencing_enabled :=
         dict_get_or (data entry) CONF_GEOFENCING_ENABLED (VBool false);
       min_temp := dict_get (data entry) CONF_MIN_TEMP;
       max_temp := dict_get (data entry) CONF_MAX_TEMP;
       coordinator_data := None |} in
  (* Fetch initial data *)
  coordinator <-
    try_except
      (let r := async_config_entry_first_refresh coordinator in
       emit (EvFirstRefresh (raised_of r.1)) ;;;
       match r.1 with
       | Ok _ => ret r.2
       | Raise e => raise e
       end)
      (fun err =>
         if isinstance err "TadoXApiError" then
           raise (ConfigEntryNotReady
                    ("Failed to fetch data: " +:+ exn_msg err) err)
         else raise err) ;;
  h <- get ;;
  put (setdefault_domain h) ;;;
  domain_store (entry_id entry) (HCoordinator coordinator) ;;;
  h <- get ;;
  (let r := async_forward_entry_setups h entry PLATFORMS in
   emit (EvForwardEntrySetups (entry_id entry) PLATFORMS (raised_of r)) ;;;
   match r with
   | Ok _ => ret tt
   | Raise e => raise e
   end) ;;;
  ret true.
End Init.
End Init.

(** ** [config_flow.py] *)
Module ConfigFlow.

(** The schema a form is shown with *)
Inductive form_schema `{PyRuntime} : Type :=
  | SchemaEmpty
  | SchemaSelectHome (home_options : list (pyval * pyval))
  | SchemaConfigure.

Inductive ConfigFlowResult `{PyRuntime} : Type :=
  | ShowForm (step_id : string) (data_schema : form_schema)
    (errors : gmap string string) (description_placeholders : dict)
  | AbortFlow (reason : string)
  | CreateEntry (title : pyval) (data : dict).

(** The flow object: the attributes [__init__] sets, and from the
    [ConfigFlow] base class the host, the unique id (written only by
    [async_set_unique_id]) and the entry a reauth flow was started for. *)
Record TadoXConfigFlow `{ApiModule} := {
  hass : HomeAssistant;
  flow_unique_id : option string;
  reauth_entry_id : option string;
  _api : option TadoXApi;
  _device_code : pyval;
  _user_code : pyval;
  _verification_uri : pyval;
  _homes : list dict;
  _selected_home : option dict;
  }.

Section ConfigFlow.
Context `{AM : ApiModule} {KM : ConstModule}.

Definition __init__ (h : HomeAssistant) (reauth : option string)
    : TadoXConfigFlow :=
  {| hass := h; flow_unique_id := None; reauth_entry_id := reauth;
     _api := None; _device_code := VNone; _user_code := VNone;
     _verification_uri := VNone; _homes := []; _selected_home := None |}.

Definition set_hass (h : HomeAssistant) (f : TadoXConfigFlow) :=
  {| hass := h; flow_unique_id := flow_unique_id f;
     reauth_entry_id := reauth_entry_id f; _api := _api f;
     _device_code := _device_code f; _user_code := _user_code f;
     _verification_uri := _verification_uri f; _homes := _homes f;
     _selected_home := _selected_home f |}.
Definition set_api (a : option TadoXApi) (f : TadoXConfigFlow) :=
  {| hass := hass f; flow_unique_id := flow_unique_id f;
     reauth_entry_id := reauth_entry_id f; _api := a;
     _device_code := _device_code f; _user_code := _user_code f;
     _verification_uri := _verification_uri f; _homes := _homes f;
     _selected_home := _selected_home f |}.
Definition set_device_code (v : pyval) (f : TadoXConfigFlow) :=
  {| hass := hass f; flow_unique_id := flow_unique_id f;
     reauth_entry_id := reauth_entry_id f; _api := _api f;
     _device_code := v; _user_code := _user_code f;
     _verification_uri := _verification_uri f; _homes := _homes f;
     _selected_home := _selected_home f |}.
Definition set_user_code (v : pyval) (f : TadoXConfigFlow) :=
  {| hass := hass f; flow_unique_id := flow_unique_id f;
     reauth_entry_id := reauth_entry_id f; _api := _api f;
     _device_code := _device_code f; _user_code := v;
     _verification_uri := _verification_uri f; _homes := _homes f;
     _selected_home := _selected_home f |}.
Definition set_verification_uri (v : pyval) (f : TadoXConfigFlow) :=
  {| hass := hass f; flow_unique_id := flow_unique_id f;
     reauth_entry_id := reauth_entry_id f; _api := _api f;
     _device_code := _device_code f; _user_code := _user_code f;
     _verification_uri := v; _homes := _homes f;
     _selected_home := _selected_home f |}.
Definition set_homes (l : list dict) (f : TadoXConfigFlow) :=
  {| hass := hass f; flow_unique_id := flow_unique_id f;
     reauth_entry_id := reauth_entry_id f; _api := _api f;
     _device_code := _device_code f; _user_code := _user_code f;
     _verification_uri := _verification_uri f; _homes := l;
     _selected_home := _selected_home f |}.
Definition set_selected_home (o : option dict) (f : TadoXConfigFlow) :=
  {| hass := hass f; flow_unique_id := flow_unique_id f;
     reauth_entry_id := reauth_entry_id f; _api := _api f;
     _device_code := _device_code f; _user_code := _user_code f;
     _verification_uri := _verification_uri f; _homes := _homes f;
     _selected_home := o |}.

Abbreviation Flow := (M TadoXConfigFlow).

(** [self.attr = v] *)
Definition assign (setter : TadoXConfigFlow -> TadoXConfigFlow)
    : Flow unit :=
  self <- get ;; put (setter self).

(** [await self._api.method(args)]: the object stays changed also when
    the method raises. *)
Definition self_api_call {A} (method : string) (args : list pyval)
    (f : TadoXApi -> outcome A * TadoXApi) : Flow A :=
  self <- get ;;
  match _api self with
  | None => raise (AttributeError "'NoneType' object has no attribute")
  | Some a =>
      let r := f a in
      put (set_api (Some r.2) self) ;;;
      emit (EvApi method args (raised_of r.1)) ;;;
      match r.1 with
      | Ok x => ret x
      | Raise e => raise e
      end
  end.

Definition call_start_device_auth : Flow dict :=
  self_api_call "start_device_auth" [] start_device_auth.
Definition call_poll_for_token (device_code : pyval) (interval timeout : Z)
    : Flow bool :=
  self_api_call "poll_for_token" [device_code; VInt interval; VInt timeout]
    (fun a => poll_for_token a device_code interval timeout).
Definition call_get_homes : Flow (list dict) :=
  self_api_call "get_homes" [] get_homes.

(** [home[k]] for [home: dict | None] *)
Definition subscript_home (home : option dict) (k : string) : Flow pyval :=
  match home with
  | Some d => subscript d k
  | None => raise (TypeError "'NoneType' object is not subscriptable")
  end.

(** The loop of [_create_entry] over [self._async_current_entries()] *)
Fixpoint already_configured (await_unique_id : string)
    (entries : list ConfigEntry) : bool :=
  match entries with
  | [] => false
  | entry :: rest =>
      if bool_decide (unique_id entry = Some await_unique_id) then true
      else already_configured await_unique_id rest
  end.

Definition _create_entry (home : option dict)
    (scan_interval geofencing_enabled min_temp max_temp : pyval)
    : Flow ConfigFlowResult :=
  self <- get ;;
  match _api self with
  | None => ret (AbortFlow "unknown")
  | Some a =>
      (* Check if this home is already configured *)
      hid <- subscript_home home "id" ;;
      let await_unique_id := "tado_x_" +:+ py_str hid in
      if already_configured await_unique_id (config_entries (hass self))
      then ret (AbortFlow "already_configured")
      else
        title <- subscript_home home "name" ;;
        hid <- subscript_home home "id" ;;
        hname <- subscript_home home "name" ;;
        ret (CreateEntry title
               (<[CONF_MAX_TEMP := max_temp]>
               (<[CONF_MIN_TEMP := min_temp]>
               (<[CONF_GEOFENCING_ENABLED := geofencing_enabled]>
               (<[CONF_SCAN_INTERVAL := scan_interval]>
               (<[CONF_TOKEN_EXPIRY := token_expiry_iso a]>
               (<[CONF_REFRESH_TOKEN := refresh_token a]>
               (<[CONF_ACCESS_TOKEN := access_token a]>
               (<[CONF_HOME_NAME := hname]>
               (<[CONF_HOME_ID := hid]> ∅))))))))))
  end.

Definition async_step_configure (user_input : option dict)
    : Flow ConfigFlowResult :=
  match user_input with
  | Some user_input =>
      let scan_interval :=
        dict_get_or user_input CONF_SCAN_INTERVAL DEFAULT_SCAN_INTERVAL in
      let geofencing_enabled :=
        dict_get_or user_input CONF_GEOFENCING_ENABLED (VBool false) in
      let min_temp := dict_get_or user_input CONF_MIN_TEMP MIN_TEMP in
      let max_temp := dict_get_or user_input CONF_MAX_TEMP MAX_TEMP in
      self <- get ;;
      _create_entry (_selected_home self) scan_interval geofencing_enabled
        min_temp max_temp
  | None =>
      ret (ShowForm "configure" SchemaConfigure ∅
             {["default_interval" := VStr (py_str DEFAULT_SCAN_INTERVAL)]})
  end.

(** The loop of [async_step_select_home] over [self._homes] *)
Fixpoint select_home_loop (home_id : pyval) (homes : list dict)
    : Flow (option ConfigFlowResult) :=
  match homes with
  | [] => ret None
  | home :: rest =>
      i <- subscript home "id" ;;
      if py_eq i home_id then
        assign (set_selected_home (Some home)) ;;;
        r <- async_step_configure None ;;
        ret (Some r)
      else select_home_loop home_id rest
  end.

(** [{home["id"]: home["name"] for home in self._homes}] *)
Fixpoint home_options (homes : list dict) : Flow (list (pyval * pyval)) :=
  match homes with
  | [] => ret []
  | home :: rest =>
      i <- subscript home "id" ;;
      n <- subscript home "name" ;;
      opts <- home_options rest ;;
      ret ((i, n) :: opts)
  end.

Definition async_step_select_home (user_input : option dict)
    : Flow ConfigFlowResult :=
  returned <-
    match user_input with
    | Some user_input =>
        home_id <- subscript user_input CONF_HOME_ID ;;
        self <- get ;;
        select_home_loop home_id (_homes self)
    | None => ret None
    end ;;
  match returned with
  | Some r => ret r
  | None =>
      self <- get ;;
      opts <- home_options (_homes self) ;;
      ret (ShowForm "select_home" (SchemaSelectHome opts) ∅ ∅)
  end.

(** The form of the auth steps: [self._user_code or ""] and so on *)
Definition auth_placeholders (self : TadoXConfigFlow) : dict :=
  {[ "user_code" := py_or (_user_code self) (VStr "");
     "verification_uri" := py_or (_verification_uri self) (VStr "") ]}.

Definition async_step_auth (user_input : option dict)
    : Flow ConfigFlowResult :=
  outcome <-
    match user_input with
    | Some _ =>
        (* User confirmed they authorized the device *)
        self <- get ;;
        if bool_decide (is_Some (_api self)) && truthy (_device_code self)
        then
          try_except
            ((* Poll for token - give enough time for user to authorize *)
             success <- call_poll_for_token (_device_code self) 3 120 ;;
             if success : bool then
               (* Get homes *)
               homes <- call_get_homes ;;
               assign (set_homes homes) ;;;
               match homes with
               | [home] =>
                   (* Only one home, go to configure step *)
                   assign (set_selected_home (Some home)) ;;;
                   r <- async_step_configure None ;;
                   ret (inl r)
               | _ :: _ :: _ =>
                   (* Multiple homes, let user choose *)
                   r <- async_step_select_home None ;;
                   ret (inl r)
               | [] => ret (inr {[ "base" := "no_homes" ]})
               end
             else ret (inr {[ "base" := "auth_timeout" ]}))
            (fun err =>
               if isinstance err "TadoXAuthError" then
                 log "error" ("Auth error: " +:+ exn_msg err) ;;;
                 ret (inr {[ "base" := "auth_error" ]})
               else raise err)
        else ret (inr ∅)
    | None => ret (inr ∅)
    end ;;
  match outcome with
  | inl r => ret r
  | inr errors =>
      self <- get ;;
      ret (ShowForm "auth" SchemaEmpty errors (auth_placeholders self))
  end.

Definition async_step_user (user_input : option dict)
    : Flow ConfigFlowResult :=
  outcome <-
    match user_input with
    | Some _ =>
        (* User clicked "Start Authentication" *)
        self <- get ;;
        let session := client_session (hass self) in
        assign (set_api (Some (new_TadoXApi session VNone VNone None))) ;;;
        try_except
          (auth_data <- call_start_device_auth ;;
           dc <- subscript auth_data "device_code" ;;
           assign (set_device_code dc) ;;;
           uc <- subscript auth_data "user_code" ;;
           assign (set_user_code uc) ;;;
           assign (set_verification_uri
                     (dict_get_or auth_data "verification_uri_complete"
                        (dict_get_or auth_data "verification_uri"
                           (VStr "https://login.tado.com/oauth2/device")))) ;;;
           r <- async_step_auth None ;;
           ret (inl r))
          (fun err =>
             if isinstance err "TadoXAuthError" then
               log "error" ("Failed to start device auth: " +:+ exn_msg err) ;;;
               ret (inr {[ "base" := "auth_error" ]})
             else if isinstance err "ClientError" then
               log "error" ("Network error: " +:+ exn_msg err) ;;;
               ret (inr {[ "base" := "cannot_connect" ]})
             else raise err)
    | None => ret (inr ∅)
    end ;;
  match outcome with
  | inl r => ret r
  | inr errors =>
      ret (ShowForm "user" SchemaEmpty errors
             {[ "info" := VStr "Click 'Submit' to start the authentication process with Tado." ]})
  end.

(** [self._get_reauth_entry()] *)
Definition _get_reauth_entry : Flow ConfigEntry :=
  self <- get ;;
  match reauth_entry_id self with
  | None => raise (Exn ["ValueError"; "Exception"; "BaseException"]
                     "Source is not reauth")
  | Some eid =>
      match List.find (fun e => String.eqb (entry_id e) eid)
              (config_entries (hass self)) with
      | Some e => ret e
      | None => raise (UnknownEntry eid)
      end
  end.

(** [self.async_update_reload_and_abort(entry, data=d)]: the host
    replaces the entry's data, schedules a reload and aborts the flow. *)
Definition async_update_reload_and_abort (entry : ConfigEntry) (d : dict)
    : Flow ConfigFlowResult :=
  self <- get ;;
  put (set_hass (store_update (entry_id entry) d (hass self)) self) ;;;
  emit (EvUpdateEntry (entry_id entry) d) ;;;
  emit (EvScheduleReload (entry_id entry)) ;;;
  ret (AbortFlow "reauth_successful").

Definition async_step_reauth_auth (user_input : option dict)
    : Flow ConfigFlowResult :=
  outcome <-
    match user_input with
    | Some _ =>
        self <- get ;;
        if bool_decide (is_Some (_api self)) && truthy (_device_code self)
        then
          try_except
            (success <- call_poll_for_token (_device_code self) 3 120 ;;
             if success : bool then
               (* Update the existing entry *)
               reauth_entry <- _get_reauth_entry ;;
               self <- get ;;
               match _api self with
               | None =>
                   raise (AttributeError
                            "'NoneType' object has no attribute")
               | Some a =>
                   r <- async_update_reload_and_abort reauth_entry
                          (<[CONF_TOKEN_EXPIRY := token_expiry_iso a]>
                             (<[CONF_REFRESH_TOKEN := refresh_token a]>
                                (<[CONF_ACCESS_TOKEN := access_token a]>
                                   (data reauth_entry)))) ;;
                   ret (inl r)
               end
             else ret (inr {[ "base" := "auth_timeout" ]}))
            (fun err =>
               if isinstance err "TadoXAuthError" then
                 log "error" ("Auth error: " +:+ exn_msg err) ;;;
                 ret (inr {[ "base" := "auth_error" ]})
               else raise err)
        else ret (inr ∅)
    | None => ret (inr ∅)
    end ;;
  match outcome with
  | inl r => ret r
  | inr errors =>
      self <- get ;;
      ret (ShowForm "reauth_auth" SchemaEmpty errors
             (auth_placeholders self))
  end.

Definition async_step_reauth_confirm (user_input : option dict)
    : Flow ConfigFlowResult :=
  outcome <-
    match user_input with
    | Some _ =>
        self <- get ;;
        let session := client_session (hass self) in
        assign (set_api (Some (new_TadoXApi session VNone VNone None))) ;;;
        try_except
          (auth_data <- call_start_device_auth ;;
           dc <- subscript auth_data "device_code" ;;
           assign (set_device_code dc) ;;;
           uc <- subscript auth_data "user_code" ;;
           assign (set_user_code uc) ;;;
           assign (set_verification_uri
                     (dict_get_or auth_data "verification_uri_complete"
                        (dict_get auth_data "verification_uri"))) ;;;
           r <- async_step_reauth_auth None ;;
           ret (inl r))
          (fun err =>
             if isinstance err "TadoXAuthError" then
               log "error" ("Failed to start device auth: " +:+ exn_msg err) ;;;
               ret (inr {[ "base" := "auth_error" ]})
             else raise err)
    | None => ret (inr ∅)
    end ;;
  match outcome with
  | inl r => ret r
  | inr errors => ret (ShowForm "reauth_confirm" SchemaEmpty errors ∅)
  end.

Definition async_step_reauth (entry_data : dict) : Flow ConfigFlowResult :=
  async_step_reauth_confirm None.

(** The steps the host can ask of a flow *)
Inductive step : Type :=
  | StepUser (user_input : option dict)
  | StepAuth (user_input : option dict)
  | StepSelectHome (user_input : option dict)
  | StepConfigure (user_input : option dict)
  | StepReauth (entry_data : dict)
  | StepReauthConfirm (user_input : option dict)
  | StepReauthAuth (user_input : option dict).

Definition run_step (st : step) : Flow ConfigFlowResult :=
  match st with
  | StepUser ui => async_step_user ui
  | StepAuth ui => async_step_auth ui
  | StepSelectHome ui => async_step_select_home ui
  | StepConfigure ui => async_step_configure ui
  | StepReauth d => async_step_reauth d
  | StepReauthConfirm ui => async_step_reauth_confirm ui
  | StepReauthAuth ui => async_step_reauth_auth ui
  end.

(** The host finishing a step: a [CreateEntry] result becomes a stored
    entry that takes the flow's unique id; [new_id] is the id the host
    gives it. *)
Definition finish_step (new_id : string) (r : outcome ConfigFlowResult)
    (self : TadoXConfigFlow) : HomeAssistant :=
  match r with
  | Ok (CreateEntry t d) =>
      set_config_entries
        (fun es => es ++ [ {| entry_id := new_id;
                              unique_id := flow_unique_id self;
                              title := t; data := d |} ])%list
        (hass self)
  | _ => hass self
  end.

(** A flow driven through a list of steps, each finished by the host
    (which in fact stops driving a flow once it created an entry or
    aborted: the runs here include the host's). *)
Fixpoint run_steps (sts : list (step * string)) (self : TadoXConfigFlow)
    : TadoXConfigFlow :=
  match sts with
  | [] => self
  | (st, new_id) :: rest =>
      let '(r, self', _) := run_step st self in
      run_steps rest (set_hass (finish_step new_id r self') self')
  end.
End ConfigFlow.
End ConfigFlow.

(** ** [number.py] *)
Module Number.

(** The entity object; [self.coordinator] is the coordinator shared with
    the other entities, the state the methods below run on. *)
Record TadoXTemperatureOffset := {
  _device_serial : string;
  _attr_unique_id : string;
  }.

Section Number.
Context `{CM : CoordinatorModule} {KM : ConstModule}.

Definition new_TadoXTemperatureOffset
    (coordinator : TadoXDataUpdateCoordinator) (device_serial : string)
    : TadoXTemperatureOffset :=
  {| _device_serial := device_serial;
     _attr_unique_id := py_str (home_id coordinator) +:+ "_" +:+ device_serial
                        +:+ "_temperature_offset" |}.

(** [devices.get(serial)] *)
Fixpoint devices_get (ds : list (string * TadoXDevice)) (serial : string)
    : option TadoXDevice :=
  match ds with
  | [] => None
  | (k, d) :: rest =>
      if String.eqb k serial then Some d else devices_get rest serial
  end.

(** [coordinator.data.devices] *)
Definition coordinator_devices (c : TadoXDataUpdateCoordinator)
    : outcome (list (string * TadoXDevice)) :=
  match coordinator_data c with
  | Some d => Ok (devices d)
  | None => Raise (AttributeError
                     "'NoneType' object has no attribute 'devices'")
  end.

(** [device.device_type in ("VA04", "SU04")] *)
Definition supports_offset (device : TadoXDevice) : bool :=
  eq_str (device_type device) "VA04" || eq_str (device_type device) "SU04".

(** The loop of [async_setup_entry] over the devices *)
Fixpoint offset_entities_loop {S} (coordinator : TadoXDataUpdateCoordinator)
    (ds : list TadoXDevice) (entities : list TadoXTemperatureOffset)
    : M S (list TadoXTemperatureOffset) :=
  match ds with
  | [] => ret entities
  | device :: rest =>
      log "debug" ("Checking device " +:+ serial_number device
                   +:+ " (type: " +:+ py_str (device_type device)
                   +:+ ") for temperature offset support") ;;;
      if supports_offset device then
        log "info" ("Adding temperature offset entity for device "
                    +:+ serial_number device +:+ " ("
                    +:+ py_str (device_type device) +:+ ")") ;;;
        offset_entities_loop coordinator rest
          (entities ++ [new_TadoXTemperatureOffset coordinator
                          (serial_number device)])%list
      else offset_entities_loop coordinator rest entities
  end.

(** The result is the list handed to [async_add_entities]. *)
Definition async_setup_entry (entry : ConfigEntry)
    : M HomeAssistant (list TadoXTemperatureOffset) :=
  h <- get ;;
  coordinator <-
    match hass_data h !! DOMAIN with
    | None => raise (KeyError DOMAIN)
    | Some dd =>
        match dd !! entry_id entry with
        | Some (HCoordinator c) => ret c
        | Some (HYaml _) =>
            raise (AttributeError "'dict' object has no attribute 'data'")
        | None => raise (KeyError (entry_id entry))
        end
    end ;;
  ds <- (fun s => (coordinator_devices coordinator, s, [])) ;;
  entities <- offset_entities_loop coordinator ds.*2 [] ;;
  log "info" ("Total temperature offset entities created: "
              +:+ pretty (Z.of_nat (length entities))) ;;;
  ret entities.

Definition _device (self : TadoXTemperatureOffset)
    (coordinator : TadoXDataUpdateCoordinator)
    : outcome (option TadoXDevice) :=
  match coordinator_devices coordinator with
  | Ok ds => Ok (devices_get ds (_device_serial self))
  | Raise e => Raise e
  end.

(** A [TadoXDevice] object is truthy: [not device] holds of [None]
    only. *)
Definition available (self : TadoXTemperatureOffset)
    (coordinator : TadoXDataUpdateCoordinator) : outcome bool :=
  match _device self coordinator with
  | Ok None => Ok false
  | Ok (Some device) => Ok (eq_str (connection_state device) "CONNECTED")
  | Raise e => Raise e
  end.

Definition native_value (self : TadoXTemperatureOffset)
    (coordinator : TadoXDataUpdateCoordinator) : outcome (option float) :=
  match _device self coordinator with
  | Ok None => Ok None
  | Ok (Some device) => Ok (temperature_offset device)
  | Raise e => Raise e
  end.

Definition set_coordinator_api (a : TadoXApi)
    (c : TadoXDataUpdateCoordinator) : TadoXDataUpdateCoordinator :=
  {| api := a; home_id := home_id c; home_name := home_name c;
     scan_interval := scan_interval c;
     geofencing_enabled := geofencing_enabled c;
     min_temp := min_temp c; max_temp := max_temp c;
     coordinator_data := coordinator_data c |}.

Definition async_set_native_value (self : TadoXTemperatureOffset)
    (value : float) : M TadoXDataUpdateCoordinator unit :=
  try_except
    (coordinator <- get ;;
     (let r := set_device_temperature_offset (api coordinator)
                 (_device_serial self) value in
      put (set_coordinator_api r.2 coordinator) ;;;
      emit (EvApi "set_device_temperature_offset"
              [VStr (_device_serial self); VFloat value]
              (raised_of r.1)) ;;;
      match r.1 with Ok _ => ret tt | Raise e => raise e end) ;;;
     (* Refresh coordinator data to update the entity *)
     coordinator <- get ;;
     let r := async_request_refresh coordinator in
     put r.2 ;;;
     emit (EvRequestRefresh (raised_of r.1)) ;;;
     match r.1 with Ok _ => ret tt | Raise e => raise e end)
    (fun err =>
       if isinstance err "Exception" then
         log "error" ("Failed to set temperature offset for device "
                      +:+ _device_serial self +:+ ": " +:+ exn_msg err) ;;;
         raise err
       else raise err).
End Number.
End Number.

(** ** [__init__.py]: unloading and reloading an entry *)

(** The host unloading the platforms of an entry; it answers whether all
    of them unloaded.  As with the forwarding of an entry to its platforms,
    what the host does to itself meanwhile is not modelled: the call reads
    the host and leaves [hass.data] and the entries alone. *)
Class UnloadModule `{ApiModule} := {
  async_unload_platforms :
    HomeAssistant -> ConfigEntry -> list string -> outcome bool;
}.

Module InitUnload.
Section InitUnload.
Context `{CM : CoordinatorModule} {KM : ConstModule} {HM : HostModule}
  {UM : UnloadModule}.

(** [hass.data[DOMAIN].pop(k)] *)
Definition domain_pop (k : string) : M HomeAssistant unit :=
  h <- get ;;
  match hass_data h !! DOMAIN with
  | None => raise (KeyError DOMAIN)
  | Some dd =>
      match dd !! k with
      | None => raise (KeyError k)
      | Some _ => put (set_hass_data (insert DOMAIN (delete k dd)) h)
      end
  end.

(** The call of [async_unload_platforms] leaves no event in the trace. *)
Definition async_unload_entry (entry : ConfigEntry) : M HomeAssistant bool :=
  h <- get ;;
  unload_ok <- (fun s => (async_unload_platforms h entry PLATFORMS, s, [])) ;;
  (if unload_ok : bool then domain_pop (entry_id entry) else ret tt) ;;;
  ret unload_ok.

Definition async_reload_entry (entry : ConfigEntry) : M HomeAssistant unit :=
  async_unload_entry entry ;;;
  Init.async_setup_entry entry ;;;
  ret tt.
End InitUnload.
End InitUnload.

(** ** What the claims about stored tokens speak of *)

Section Frame.
Context `{AM : ApiModule} {KM : ConstModule}.

Definition token_keys : list string :=
  [CONF_ACCESS_TOKEN; CONF_REFRESH_TOKEN; CONF_TOKEN_EXPIRY].

Definition conf_keys : list string :=
  [CONF_HOME_ID; CONF_HOME_NAME; CONF_ACCESS_TOKEN; CONF_REFRESH_TOKEN;
   CONF_TOKEN_EXPIRY; CONF_SCAN_INTERVAL; CONF_GEOFENCING_ENABLED;
   CONF_MIN_TEMP; CONF_MAX_TEMP].

(** [new] is [old] with the three token fields taken from the client
    object [a] and nothing else touched: the two tokens as the object has
    them, the expiry as the ISO string of the object's expiry, or [None]
    when the object has no expiry. *)
Definition tokens_replaced (old new : dict) (a : TadoXApi) : Prop :=
  new !! CONF_ACCESS_TOKEN = Some (access_token a) ∧
  new !! CONF_REFRESH_TOKEN = Some (refresh_token a) ∧
  new !! CONF_TOKEN_EXPIRY
    = Some (match token_expiry a with
            | Some t => VStr (isoformat t)
            | None => VNone
            end) ∧
  ∀ k, k ∉ token_keys → new !! k = old !! k.
End Frame.

(** ** The runs of the entry setup *)

Section SetupRuns.
Context `{CM : CoordinatorModule} {KM : ConstModule} {HM : HostModule}.
Import Init.

(** The data written back once the tokens are refreshed *)
Definition refreshed_data (old : dict) (a : TadoXApi) : dict :=
  <[CONF_TOKEN_EXPIRY := token_expiry_iso a]>
    (<[CONF_REFRESH_TOKEN := refresh_token a]>
       (<[CONF_ACCESS_TOKEN := access_token a]> old)).

(** How a setup goes on once the stored entry holds the refreshed tokens;
    [h1] is the host at that point. *)
Inductive setup_tail (entry : ConfigEntry) (hid : pyval) (h1 : HomeAssistant)
  : outcome bool -> HomeAssistant -> list event -> Prop :=
| tail_no_domain :
    hass_data h1 !! DOMAIN = None ->
    setup_tail entry hid h1 (Raise (KeyError DOMAIN)) h1 []
| tail_yaml_not_dict dd c :
    hass_data h1 !! DOMAIN = Some dd ->
    dd !! "yaml_config" = Some (HCoordinator c) ->
    setup_tail entry hid h1
      (Raise (AttributeError "object has no attribute 'get'")) h1 []
| tail_first_refresh_raised msg name e :
    setup_tail entry hid h1
      (Raise (if isinstance e "TadoXApiError"
              then ConfigEntryNotReady
                     ("Failed to fetch data: " +:+ exn_msg e) e
              else e))
      h1
      [EvLog "info" msg;
       EvDeviceRegistry (entry_id entry) (DOMAIN, py_str hid) name
         "Tado" "Tado X Home";
       EvCreateCoordinator hid;
       EvFirstRefresh (Some e)]
| tail_forwarded msg name dd c x :
    hass_data h1 !! DOMAIN = Some dd ->
    setup_tail entry hid h1
      (match x with Some e => Raise e | None => Ok true end)
      (set_hass_data
         (insert DOMAIN (<[entry_id entry := HCoordinator c]> dd)) h1)
      [EvLog "info" msg;
       EvDeviceRegistry (entry_id entry) (DOMAIN, py_str hid) name
         "Tado" "Tado X Home";
       EvCreateCoordinator hid;
       EvFirstRefresh None;
       EvForwardEntrySetups (entry_id entry) PLATFORMS x].

(** The runs of [async_setup_entry] *)
Inductive setup_run (entry : ConfigEntry) (h : HomeAssistant)
  : outcome bool -> HomeAssistant -> list event -> Prop :=
| run_no_home_id :
    data entry !! CONF_HOME_ID = None ->
    setup_run entry h (Raise (KeyError CONF_HOME_ID)) h []
| run_refresh_raised hid e a1 :
    data entry !! CONF_HOME_ID = Some hid ->
    refresh_access_token (entry_api (client_session h) entry)
      = (Raise e, a1) ->
    setup_run entry h
      (Raise (if isinstance e "TadoXAuthError"
              then ConfigEntryAuthFailed
                     ("Authentication failed: " +:+ exn_msg e) e
              else e))
      h
      (EvApi "refresh_access_token" [] (Some e)
       :: if isinstance e "TadoXAuthError"
          then [EvLog "error" ("Authentication failed: " +:+ exn_msg e)]
          else [])
| run_refreshed hid a1 r h' rest :
    data entry !! CONF_HOME_ID = Some hid ->
    refresh_access_token (entry_api (client_session h) entry)
      = (Ok tt, a1) ->
    setup_tail entry hid
      (store_update (entry_id entry) (refreshed_data (data entry) a1) h)
      r h' rest ->
    setup_run entry h r h'
      (EvApi "refresh_access_token" [] None
       :: EvUpdateEntry (entry_id entry) (refreshed_data (data entry) a1)
       :: rest).
End SetupRuns.

(** ** What the properties speak of *)

Definition result_of `{PyRuntime} {S A} (x : outcome A * S * list event)
  : outcome A := x.1.1.
Definition state_of `{PyRuntime} {S A} (x : outcome A * S * list event)
  : S := x.1.2.
Definition trace_of `{PyRuntime} {S A} (x : outcome A * S * list event)
  : list event := x.2.

Definition is_log `{PyRuntime} (ev : event) : Prop :=
  match ev with EvLog _ _ => True | _ => False end.

(** A computation keeps [P] when [P] of the state it starts in gives [P] of
    the state it ends in, whether it returns or raises. *)
Definition keeps `{PyRuntime} {S A} (P : S -> Prop) (m : M S A) : Prop :=
  forall s, P s -> P (state_of (m s)).

Section FlowViews.
Context `{AM : ApiModule} {KM : ConstModule}.
Import ConfigFlow.

(** The poll of the auth steps, as the trace shows it *)
Definition polled (self : TadoXConfigFlow) (raised : option exn) : event :=
  EvApi "poll_for_token" [_device_code self; VInt 3; VInt 120] raised.

(** The form [async_step_user] shows *)
Definition user_form (errors : gmap string string) : ConfigFlowResult :=
  ShowForm "user" SchemaEmpty errors
    {[ "info" :=
         VStr "Click 'Submit' to start the authentication process with Tado." ]}.

(** The keys of the entry data that are no token keys *)
Definition carried_keys : list string :=
  [CONF_HOME_ID; CONF_HOME_NAME; CONF_SCAN_INTERVAL;
   CONF_GEOFENCING_ENABLED; CONF_MIN_TEMP; CONF_MAX_TEMP].

(** What a flow and the stored entries have as unique ids *)
Definition uid_view (self : TadoXConfigFlow)
  : option string * list (option string) :=
  (flow_unique_id self, unique_id <$> config_entries (hass self)).

(** Neither the flow nor a stored entry has a unique id *)
Definition no_unique_ids (self : TadoXConfigFlow) : Prop :=
  flow_unique_id self = None
  /\ Forall (fun e => unique_id e = None) (config_entries (hass self)).
End FlowViews.

(** ** More of what the properties speak of *)

Section MoreFlowViews.
Context `{AM : ApiModule} {KM : ConstModule}.
Import ConfigFlow.

(** The form [async_step_configure] shows when it is not submitted *)
Definition configure_form : ConfigFlowResult :=
  ShowForm "configure" SchemaConfigure ∅
    {[ "default_interval" := VStr (py_str DEFAULT_SCAN_INTERVAL) ]}.
End MoreFlowViews.

(** ** A concrete world to run the definitions in *)
Module Fixture.

#[local] Instance runtime : PyRuntime :=
  {| float := Z;
     float_truthy := fun z => negb (z =? 0);
     float_str := fun z => pretty z +:+ ".0";
     float_eqb := Z.eqb;
     float_eq_int := Z.eqb;
     datetime := string;
     isoformat := fun s => s;
     fromisoformat := fun s => Some s |}.

#[local] Instance consts : ConstModule :=
  {| DOMAIN := "tado_x";
     PLATFORMS := ["climate"; "sensor"; "number"];
     CONF_ACCESS_TOKEN := "access_token";
     CONF_REFRESH_TOKEN := "refresh_token";
     CONF_TOKEN_EXPIRY := "token_expiry";
     CONF_HOME_ID := "home_id";
     CONF_HOME_NAME := "home_name";
     CONF_SCAN_INTERVAL := "scan_interval";
     CONF_GEOFENCING_ENABLED := "geofencing_enabled";
     CONF_MIN_TEMP := "min_temp";
     CONF_MAX_TEMP := "max_temp";
     DEFAULT_SCAN_INTERVAL := VInt 1800;
     MIN_TEMP := VFloat 5;
     MAX_TEMP := VFloat 30 |}.

(** What the network answers in a run *)
Inductive network : Type :=
  | Online (homes : nat)
  | PollTimesOut
  | Unauthorized
  | Unreachable
  | DataFails.

Record client := {
  net : network;
  tok_access : pyval;
  tok_refresh : pyval;
  tok_expiry : option string;
  }.

Definition TadoXAuthError (m : string) : exn :=
  Exn ["TadoXAuthError"; "Exception"; "BaseException"] m.
Definition TadoXApiError (m : string) : exn :=
  Exn ["TadoXApiError"; "Exception"; "BaseException"] m.
Definition ClientError (m : string) : exn :=
  Exn ["ClientError"; "Exception"; "BaseException"] m.
Definition CancelledError : exn :=
  Exn ["CancelledError"; "BaseException"] "".

Definition fresh_tokens (c : client) : client :=
  {| net := net c; tok_access := VStr "at-2"; tok_refresh := VStr "rt-2";
     tok_expiry := Some "2026-01-01T00:10:00" |}.

Definition home (i : Z) (n : string) : dict :=
  {[ "id" := VInt i; "name" := VStr n ]}.

Definition answer {A} (c : client) (ok : A) : outcome A :=
  match net c with
  | Unauthorized => Raise (TadoXAuthError "invalid_grant")
  | Unreachable => Raise (ClientError "connection refused")
  | _ => Ok ok
  end.

#[local] Instance vendor : ApiModule :=
  {| session := network;
     TadoXApi := client;
     new_TadoXApi := fun s a r e =>
       {| net := s; tok_access := a; tok_refresh := r; tok_expiry := e |};
     access_token := tok_access;
     refresh_token := tok_refresh;
     token_expiry := tok_expiry;
     start_device_auth := fun c =>
       (answer c {[ "device_code" := VStr "dc-1"; "user_code" := VStr "7BQ5ZQ";
                    "verification_uri" := VStr "https://login.tado.com/device" ]},
        c);
     poll_for_token := fun c _ _ _ =>
       match net c with
       | PollTimesOut => (Ok false, c)
       | Online _ | DataFails => (Ok true, fresh_tokens c)
       | _ => (answer c true, c)
       end;
     get_homes := fun c =>
       (answer c match net c with
                 | Online 0 => []
                 | Online 1 => [home 7 "Flat"]
                 | _ => [home 7 "Flat"; home 8 "Cabin"]
                 end, c);
     refresh_access_token := fun c =>
       match net c with
       | Unauthorized | Unreachable => (answer c tt, c)
       | _ => (Ok tt, fresh_tokens c)
       end;
     set_device_temperature_offset := fun c _ _ => (answer c tt, c) |}.

Definition valve : TadoXDevice :=
  {| serial_number := "VA1"; device_type := VStr "VA04";
     connection_state := VStr "CONNECTED"; temperature_offset := Some 1 |}.
Definition sensor : TadoXDevice :=
  {| serial_number := "SU1"; device_type := VStr "SU04";
     connection_state := VStr "DISCONNECTED"; temperature_offset := None |}.
Definition thermostat : TadoXDevice :=
  {| serial_number := "TR1"; device_type := VStr "TR04";
     connection_state := VStr "CONNECTED"; temperature_offset := None |}.
Definition bridge : TadoXDevice :=
  {| serial_number := "IB1"; device_type := VStr "IB02";
     connection_state := VStr "CONNECTED"; temperature_offset := None |}.

Definition home_data : TadoXData :=
  {| devices := [("VA1", valve); ("TR1", thermostat); ("SU1", sensor);
                 ("IB1", bridge)] |}.

Definition with_home_data (c : TadoXDataUpdateCoordinator)
    : TadoXDataUpdateCoordinator :=
  {| api := api c; home_id := home_id c; home_name := home_name c;
     scan_interval := scan_interval c;
     geofencing_enabled := geofencing_enabled c;
     min_temp := min_temp c; max_temp := max_temp c;
     coordinator_data := Some home_data |}.

#[local] Instance coordinators : CoordinatorModule :=
  {| async_config_entry_first_refresh := fun c =>
       match net (api c) with
       | DataFails => (Raise (TadoXApiError "HTTP 500"), c)
       | _ => (Ok tt, with_home_data c)
       end;
     async_request_refresh := fun c => (Ok tt, with_home_data c) |}.

#[local] Instance host : HostModule :=
  {| async_forward_entry_setups := fun _ _ _ => Ok tt |}.

Definition stored_data : dict :=
  {[ "home_id" := VInt 7; "home_name" := VStr "Flat";
     "access_token" := VStr "at-1"; "refresh_token" := VStr "rt-1";
     "token_expiry" := VStr "2026-01-01T00:00:00";
     "scan_interval" := VInt 60; "geofencing_enabled" := VBool true;
     "min_temp" := VFloat 5; "max_temp" := VFloat 25 ]}.

Definition stored_entry : ConfigEntry :=
  {| entry_id := "e1"; unique_id := None; title := VStr "Flat";
     data := stored_data |}.

Definition hass_on (n : network) : HomeAssistant :=
  {| client_session := n;
     hass_data := {[ "tado_x" := ∅ ]};
     config_entries := [stored_entry] |}.

Definition coordinator_on (n : network) : TadoXDataUpdateCoordinator :=
  {| api := {| net := n; tok_access := VStr "at-1";
               tok_refresh := VStr "rt-1"; tok_expiry := None |};
     home_id := VInt 7; home_name := VStr "Flat";
     scan_interval := VInt 60; geofencing_enabled := VBool false;
     min_temp := VNone; max_temp := VNone;
     coordinator_data := Some home_data |}.

(** The host once the entry is set up *)
Definition domain_data (n : network) : gmap string hass_val :=
  {[ "e1" := HCoordinator (coordinator_on n) ]}.

Definition hass_set_up (n : network) : HomeAssistant :=
  {| client_session := n;
     hass_data := {[ "tado_x" := domain_data n ]};
     config_entries := [stored_entry] |}.

(** A flow that has been through the user step *)
Definition flow_on (n : network) (reauth : option string)
    : ConfigFlow.TadoXConfigFlow :=
  {| ConfigFlow.hass := hass_on n;
     ConfigFlow.flow_unique_id := None;
     ConfigFlow.reauth_entry_id := reauth;
     ConfigFlow._api := Some {| net := n; tok_access := VNone;
                                tok_refresh := VNone; tok_expiry := None |};
     ConfigFlow._device_code := VStr "dc-1";
     ConfigFlow._user_code := VStr "7BQ5ZQ";
     ConfigFlow._verification_uri := VStr "https://login.tado.com/device";
     ConfigFlow._homes := [];
     ConfigFlow._selected_home := None |}.
(** The host unloads the platforms unless the network is unreachable. *)
#[local] Instance unloader : UnloadModule :=
  {| async_unload_platforms := fun h _ _ =>
       match client_session h with
       | Unreachable => Ok false
       | _ => Ok true
       end |}.

(** A flow that has its tokens, two homes and one of them selected *)
Definition flow_authorized : ConfigFlow.TadoXConfigFlow :=
  {| ConfigFlow.hass := hass_on (Online 2);
     ConfigFlow.flow_unique_id := None;
     ConfigFlow.reauth_entry_id := None;
     ConfigFlow._api := Some {| net := Online 2; tok_access := VStr "at-2";
                                tok_refresh := VStr "rt-2";
                                tok_expiry := Some "2026-01-01T00:10:00" |};
     ConfigFlow._device_code := VStr "dc-1";
     ConfigFlow._user_code := VStr "7BQ5ZQ";
     ConfigFlow._verification_uri := VStr "https://login.tado.com/device";
     ConfigFlow._homes := [home 7 "Flat"; home 8 "Cabin"];
     ConfigFlow._selected_home := Some (home 8 "Cabin") |}.

(** A host that has read the YAML configuration of the domain *)
Definition hass_with_yaml (n : network) : HomeAssistant :=
  {| client_session := n;
     hass_data :=
       {[ "tado_x" :=
            {[ "yaml_config" := HYaml {[ "scan_interval" := VInt 120 ]} ]} ]};
     config_entries := [stored_entry] |}.

(** A host before [async_setup] *)
Definition hass_fresh (n : network) : HomeAssistant :=
  {| client_session := n; hass_data := ∅; config_entries := [stored_entry] |}.

(** A coordinator whose refresh on request fails *)
Definition stale_coordinators : CoordinatorModule :=
  {| async_config_entry_first_refresh := fun c => (Ok tt, with_home_data c);
     async_request_refresh := fun c => (Raise (TadoXApiError "HTTP 500"), c) |}.

(** A client whose call to set the offset is cancelled *)
Definition cancelled_vendor : ApiModule :=
  {| session := network;
     TadoXApi := client;
     new_TadoXApi := fun s a r e =>
       {| net := s; tok_access := a; tok_refresh := r; tok_expiry := e |};
     access_token := tok_access;
     refresh_token := tok_refresh;
     token_expiry := tok_expiry;
     start_device_auth := fun c => (Raise CancelledError, c);
     poll_for_token := fun c _ _ _ => (Raise CancelledError, c);
     get_homes := fun c => (Raise CancelledError, c);
     refresh_access_token := fun c => (Raise CancelledError, c);
     set_device_temperature_offset := fun c _ _ => (Raise CancelledError, c) |}.

Definition cancelled_coordinators : @CoordinatorModule runtime cancelled_vendor :=
  {| async_config_entry_first_refresh := fun c => (Ok tt, c);
     async_request_refresh := fun c => (Ok tt, c) |}.

Definition cancelled_coordinator
  : @TadoXDataUpdateCoordinator runtime cancelled_vendor :=
  @Build_TadoXDataUpdateCoordinator runtime cancelled_vendor
    {| net := Online 1; tok_access := VStr "at-1";
       tok_refresh := VStr "rt-1"; tok_expiry := None |}
    (VInt 7) (VStr "Flat") (VInt 60) (VBool false) VNone VNone None.
End Fixture.

(** * Properties *)

Lemma eq_str_true `{PyRuntime} (v : pyval) (lit : string) :
  eq_str v lit = true ↔ v = VStr lit.
Proof.
destruct v; simpl; try (split; [discriminate | intros [=]]).
rewrite String.eqb_eq. split; [congruence | intros [=]; done].
Qed.

Ltac unfold_monad :=
  unfold subscript, log in *;
  unfold bind, try_except, get, put, emit, ret, raise in *.

(** [H : ev ∈ l] for a list [l] written out: one case for each place *)
Ltac inv_elem H :=
  repeat first
    [ apply elem_of_nil in H; contradiction
    | apply elem_of_cons in H as [H|H]; [simplify_eq /= | ] ].

(** Closes [ev ∉ l] for a list [l] written out that does not hold [ev] *)
Ltac not_in_trace :=
  let Hin := fresh "Hin" in
  intros Hin; inv_elem Hin.

(** ** [number.py] *)
Section NumberProperties.
Context `{CM : CoordinatorModule} {KM : ConstModule}.
Import Number.

Lemma supports_offset_iff (dev : TadoXDevice) :
  supports_offset dev = true ↔
  device_type dev = VStr "VA04" ∨ device_type dev = VStr "SU04".
Proof.
  unfold supports_offset. rewrite orb_true_iff, !eq_str_true. done.
Qed.

Lemma offset_entities_loop_run {S} (c : TadoXDataUpdateCoordinator)
    (ds : list TadoXDevice) (acc : list TadoXTemperatureOffset) (s : S) :
  ∃ tr,
    offset_entities_loop c ds acc s =
      (Ok (acc ++ map (fun dev => new_TadoXTemperatureOffset c
                                    (serial_number dev))
                    (List.filter supports_offset ds))%list, s, tr)
    ∧ Forall is_log tr.
Proof.
  revert acc. induction ds as [|dev ds IH]; intros acc; simpl.
  - exists []. by rewrite app_nil_r.
  - destruct (supports_offset dev) eqn:Hsup.
    + destruct (IH (acc ++ [new_TadoXTemperatureOffset c
                              (serial_number dev)])%list) as (tr & Hrun & Hlog).
      eexists. unfold bind, log, emit; simpl. rewrite Hrun; simpl.
      rewrite <- app_assoc. split; [reflexivity|].
      repeat constructor; done.
    + destruct (IH acc) as (tr & Hrun & Hlog).
      eexists. unfold bind, log, emit; simpl. rewrite Hrun; simpl.
      split; [reflexivity|]. repeat constructor; done.
Qed.

(** C9: the number platform hands [async_add_entities] one offset entity
    for each device of the coordinator's data whose type is VA04 or SU04,
    in the order of the devices, and none for a device of another type;
    it writes nothing but log lines. *)
Theorem offset_entities_for_va04_su04_only
    (entry : ConfigEntry) (h : HomeAssistant)
    (dd : gmap string hass_val) (c : TadoXDataUpdateCoordinator)
    (d : TadoXData) :
  hass_data h !! DOMAIN = Some dd →
  dd !! entry_id entry = Some (HCoordinator c) →
  coordinator_data c = Some d →
  ∃ entities tr,
    async_setup_entry entry h = (Ok entities, h, tr)
    ∧ Forall is_log tr
    ∧ entities =
        map (fun dev => new_TadoXTemperatureOffset c (serial_number dev))
          (List.filter
             (fun dev => eq_str (device_type dev) "VA04"
                         || eq_str (device_type dev) "SU04")
             (devices d).*2)
    ∧ (∀ dev, In dev (devices d).*2 →
         (device_type dev = VStr "VA04" ∨ device_type dev = VStr "SU04") →
         In (new_TadoXTemperatureOffset c (serial_number dev)) entities)
    ∧ (∀ e, In e entities →
         ∃ dev, In dev (devices d).*2
                ∧ (device_type dev = VStr "VA04"
                   ∨ device_type dev = VStr "SU04")
                ∧ e = new_TadoXTemperatureOffset c (serial_number dev))
    ∧ length entities =
        length (List.filter supports_offset (devices d).*2).
Proof.
  intros Hdom Hc Hd.
  destruct (offset_entities_loop_run (S := HomeAssistant) c
              (devices d).*2 [] h) as (tr & Hrun & Hlog).
  simpl in Hrun.
  eexists _, _. split; [|split; [|split; [reflexivity|split; [|split]]]].
  - unfold async_setup_entry, bind, get, ret, log, emit, raise.
    rewrite Hdom, Hc. unfold coordinator_devices. rewrite Hd.
    rewrite Hrun. simpl. reflexivity.
  - apply Forall_app. split; [done|]. repeat constructor; done.
  - intros dev Hin Hty. apply in_map_iff. exists dev. split; [done|].
    apply filter_In. split; [done|]. by apply supports_offset_iff.
  - intros e He. apply in_map_iff in He as (dev & <- & Hin).
    apply filter_In in Hin as [Hin Hsup].
    exists dev. split; [done|]. split; [|done].
    by apply supports_offset_iff.
  - by rewrite length_map.
Qed.



(** C7: setting the offset first calls [set_device_temperature_offset]
    with the entity's serial and the value and then asks the coordinator
    for a refresh; when the call raises, the exception leaves the method
    unchanged and no refresh is asked for; it is logged as an error first
    when it is an instance of [Exception], and when it is not (a
    cancellation) the call is all that happened and nothing is logged. *)
Theorem set_offset_calls_api_then_refresh
    (self : TadoXTemperatureOffset) (value : float)
    (c : TadoXDataUpdateCoordinator) :
  let sent := set_device_temperature_offset (api c)
                (_device_serial self) value in
  let call := EvApi "set_device_temperature_offset"
                [VStr (_device_serial self); VFloat value] in
  let run := async_set_native_value self value c in
  (sent.1 = Ok tt →
     ∃ x rest, trace_of run = call None :: EvRequestRefresh x :: rest
               ∧ Forall is_log rest
               ∧ (x = None → result_of run = Ok tt ∧ rest = []))
  ∧ (∀ e, sent.1 = Raise e →
       result_of run = Raise e
       ∧ (∀ x, EvRequestRefresh x ∉ trace_of run)
       ∧ (isinstance e "Exception" = true →
            trace_of run =
              [call (Some e);
               EvLog "error"
                 ("Failed to set temperature offset for device "
                  +:+ _device_serial self +:+ ": " +:+ exn_msg e)])
       ∧ (isinstance e "Exception" = false →
            trace_of run = [call (Some e)])).
Proof.
  intros sent call run. subst run call.
  unfold async_set_native_value, try_except, bind, get, put, emit, log,
    ret, raise, result_of, trace_of. fold sent.
  destruct sent as [[[]|e] a]; simpl; split.
  - intros _.
    destruct (async_request_refresh (set_coordinator_api a c))
      as [[[]|e'] c'] eqn:Href; simpl.
    + eexists _, _. split; [reflexivity|]. split; [constructor|done].
    + destruct (isinstance e' "Exception"); simpl;
        (eexists _, _; split; [reflexivity|]; split; [|done]);
        repeat constructor; done.
  - intros e [=].
  - intros [=].
  - intros e0 [= <-].
    destruct (isinstance e "Exception"); simpl;
      (split; [done|]; split; [|done]);
      intros x Hin; repeat (apply elem_of_cons in Hin as [[=]|Hin]);
      by apply elem_of_nil in Hin.
Qed.
End NumberProperties.

(** ** [__init__.py] *)
Section InitProperties.
Context `{CM : CoordinatorModule} {KM : ConstModule} {HM : HostModule}.
Import Init.

Lemma hass_data_store_update (eid : string) (d : dict) (h : HomeAssistant) :
  hass_data (store_update eid d h) = hass_data h.
Proof. reflexivity. Qed.

Lemma setdefault_domain_present (h : HomeAssistant) (dd : gmap string hass_val) :
  hass_data h !! DOMAIN = Some dd -> setdefault_domain h = h.
Proof. intros Hdd. unfold setdefault_domain. by rewrite Hdd. Qed.

#[local] Arguments store_update : simpl never.
#[local] Arguments setdefault_domain : simpl never.

Lemma async_setup_entry_run (entry : ConfigEntry) (h : HomeAssistant) :
  setup_run entry h (result_of (async_setup_entry entry h))
    (state_of (async_setup_entry entry h))
    (trace_of (async_setup_entry entry h)).
Proof.
  unfold result_of, state_of, trace_of, async_setup_entry, api_call,
    async_update_entry, domain_store.
  unfold_monad. simpl.
  destruct (data entry !! CONF_HOME_ID) as [hid|] eqn:Hhid; simpl;
    [|by constructor].
  destruct (refresh_access_token (entry_api (client_session h) entry))
    as [[[]|e] a1] eqn:Href; simpl.
  2:{ pose proof (run_refresh_raised entry h hid e a1 Hhid Href) as Hr.
      destruct (isinstance e "TadoXAuthError"); exact Hr. }
  fold (refreshed_data (data entry) a1).
  set (h1 := store_update (entry_id entry) (refreshed_data (data entry) a1) h).
  destruct (hass_data h !! DOMAIN) as [dd|] eqn:Hdd0;
    pose proof (Hdd0 : hass_data h1 !! DOMAIN = _) as Hdd; simpl.
  2:{ eapply run_refreshed; [done..|]. by constructor. }
  destruct (dd !! "yaml_config") as [[cfg|c]|] eqn:Hy; simpl.
  2:{ eapply run_refreshed; [done..|]. by econstructor. }
  all: match goal with
       | |- context [async_config_entry_first_refresh ?c] =>
           destruct (async_config_entry_first_refresh c)
             as [[[]|e] c'] eqn:Hfirst; simpl
       end.
  all: try (match goal with
            | |- context [isinstance ?e "TadoXApiError"] =>
                pose proof (fun msg name =>
                              tail_first_refresh_raised entry hid h1
                                msg name e) as Hr;
                  destruct (isinstance e "TadoXApiError"); simpl;
                  (eapply run_refreshed; [done..|]; apply Hr)
            end).
  all: rewrite (setdefault_domain_present h1 dd Hdd); rewrite Hdd; simpl.
  all: match goal with
       | |- context [async_forward_entry_setups ?a ?b ?c] =>
           destruct (async_forward_entry_setups a b c) as [[]|e] eqn:Hfwd;
             simpl
       end.
  all: eapply run_refreshed; [done..|].
  all: try (eapply (tail_forwarded _ _ _ _ _ _ _ None); done).
  all: try (eapply (tail_forwarded _ _ _ _ _ _ _ (Some _)); done).
Qed.

(** The run lemma, for a run given by its three parts *)
Lemma setup_run_of (entry : ConfigEntry) (h : HomeAssistant)
    (r : outcome bool) (h' : HomeAssistant) (tr : list event) :
  async_setup_entry entry h = (r, h', tr) -> setup_run entry h r h' tr.
Proof.
  intros Hrun. pose proof (async_setup_entry_run entry h) as Hr.
  by rewrite Hrun in Hr.
Qed.

(** C2: in every setup a coordinator is created only after a token refresh
    that succeeded, and an entry that has its home id gets the refresh as
    the first call of the setup; when the refresh raises a
    [TadoXAuthError], the setup raises [ConfigEntryAuthFailed] from it,
    leaves [hass.data] as it was, and neither creates a coordinator nor
    forwards the entry to a platform. *)
Theorem setup_refreshes_before_coordinator
    (entry : ConfigEntry) (h : HomeAssistant)
    (r : outcome bool) (h' : HomeAssistant) (tr : list event) :
  async_setup_entry entry h = (r, h', tr) ->
  (forall pre hid post,
     tr = (pre ++ EvCreateCoordinator hid :: post)%list ->
     EvApi "refresh_access_token" [] None ∈ pre)
  /\ (is_Some (data entry !! CONF_HOME_ID) ->
       exists x rest, tr = EvApi "refresh_access_token" [] x :: rest
                 /\ x = raised_of
                         (refresh_access_token
                            (entry_api (client_session h) entry)).1)
  /\ (forall e, EvApi "refresh_access_token" [] (Some e) ∈ tr ->
       isinstance e "TadoXAuthError" = true ->
       r = Raise (ConfigEntryAuthFailed
                    ("Authentication failed: " +:+ exn_msg e) e)
       /\ hass_data h' = hass_data h
       /\ (forall hid, EvCreateCoordinator hid ∉ tr)
       /\ (forall eid ps x, EvForwardEntrySetups eid ps x ∉ tr)).
Proof.
  intros Hrun. apply setup_run_of in Hrun.
  destruct Hrun as [Hid | hid e a1 Hid Href | hid a1 r h' rest Hid Href Htail].
  - split; [|split].
    + intros [|? pre] ? ? [=].
    + rewrite Hid. by intros [? [=]].
    + intros e Hin. inv_elem Hin.
  - split; [|split].
    + intros pre hid' post Heq.
      destruct (isinstance e "TadoXAuthError");
        repeat (destruct pre as [|? pre]; simplify_eq /=).
    + intros _. eexists _, _. split; [reflexivity|]. by rewrite Href.
    + intros e' Hin Hauth.
      assert (e' = e) as ->.
      { destruct (isinstance e "TadoXAuthError"); inv_elem Hin; done. }
      rewrite Hauth. split; [done|]. split; [done|].
      split; intros; not_in_trace.
  - split; [|split].
    + intros [|ev pre] hid' post Heq; simplify_eq /=. by left.
    + intros _. eexists _, _. split; [reflexivity|]. by rewrite Href.
    + intros e Hin Hauth. exfalso.
      destruct Htail; inv_elem Hin.
Qed.

(** C5: a setup that returns has returned True, and its last two calls
    were the coordinator's first refresh, which succeeded, and the
    forwarding of the entry to [PLATFORMS], which succeeded, with the
    coordinator stored under the entry's id before; when the first refresh
    raises a [TadoXApiError], the setup raises [ConfigEntryNotReady] from
    it, [hass.data] stays as it was and nothing is forwarded. *)
Theorem setup_true_only_after_first_refresh
    (entry : ConfigEntry) (h : HomeAssistant)
    (r : outcome bool) (h' : HomeAssistant) (tr : list event) :
  async_setup_entry entry h = (r, h', tr) ->
  (forall b, r = Ok b ->
     b = true
     /\ (exists pre,
          tr = (pre ++ [EvFirstRefresh None;
                        EvForwardEntrySetups (entry_id entry) PLATFORMS
                          None])%list)
     /\ (exists dd c,
          hass_data h' !! DOMAIN = Some dd
          /\ dd !! entry_id entry = Some (HCoordinator c)))
  /\ (forall e, EvFirstRefresh (Some e) ∈ tr ->
       isinstance e "TadoXApiError" = true ->
       r = Raise (ConfigEntryNotReady
                    ("Failed to fetch data: " +:+ exn_msg e) e)
       /\ hass_data h' = hass_data h
       /\ (forall eid ps x, EvForwardEntrySetups eid ps x ∉ tr)).
Proof.
  intros Hrun. apply setup_run_of in Hrun.
  destruct Hrun as [Hid | hid e a1 Hid Href | hid a1 r h' rest Hid Href Htail].
  - split; [intros b [=] | intros e Hin; inv_elem Hin].
  - split; [intros b Hb; by destruct (isinstance e "TadoXAuthError")|].
    intros e' Hin. destruct (isinstance e "TadoXAuthError"); inv_elem Hin.
  - destruct Htail as [Hdd | dd c Hdd Hy | msg name e | msg name dd c x Hdd].
    + split; [intros b [=] | intros e Hin; inv_elem Hin].
    + split; [intros b [=] | intros e Hin; inv_elem Hin].
    + split; [intros b Hb; by destruct (isinstance e "TadoXApiError")|].
      intros e' Hin Hapi. inv_elem Hin. rewrite Hapi.
      split; [done|]. split; [done|]. intros; not_in_trace.
    + split.
      * intros b Hb. destruct x as [e|]; [done|]. simplify_eq.
        split; [done|]. split.
        -- eexists [_; _; _; _; _]. reflexivity.
        -- exists (<[entry_id entry := HCoordinator c]> dd), c. simpl.
           by rewrite !lookup_insert_eq.
      * intros e Hin. inv_elem Hin.
Qed.
End InitProperties.

(** ** [config_flow.py] *)
Section ConfigFlowProperties.
Context `{AM : ApiModule} {KM : ConstModule}.
Import ConfigFlow.

Lemma home_options_pure (homes : list dict) (s : TadoXConfigFlow) :
  state_of (home_options homes s) = s /\ trace_of (home_options homes s) = [].
Proof.
  induction homes as [|home homes IH]; [done|].
  unfold state_of, trace_of in *. simpl. unfold_monad.
  destruct (home !! "id"); [|done]. destruct (home !! "name"); [|done].
  destruct (home_options homes s) as [[[opts|e] s'] t]; simpl in *;
    destruct IH as [-> ->]; done.
Qed.

Lemma home_options_raises (homes : list dict) (s : TadoXConfigFlow)
    (e : exn) :
  result_of (home_options homes s) = Raise e -> exists k, e = KeyError k.
Proof.
  induction homes as [|home homes IH]; [done|].
  unfold result_of in *. simpl. unfold_monad.
  destruct (home !! "id"); [|intros [= <-]; eauto].
  destruct (home !! "name"); [|intros [= <-]; eauto].
  destruct (home_options homes s) as [[[opts|e'] s'] t]; simpl in *;
    [done|]. intros [= <-]. by apply IH.
Qed.

#[local] Arguments home_options : simpl never.

Lemma step_auth_polls_3_120 (ui : option dict) (self : TadoXConfigFlow)
    (args : list pyval) (x : option exn) :
  EvApi "poll_for_token" args x ∈ trace_of (async_step_auth ui self) ->
  args = [_device_code self; VInt 3; VInt 120].
Proof.
  unfold trace_of, async_step_auth, call_poll_for_token, call_get_homes,
    self_api_call, assign, async_step_configure, async_step_select_home.
  unfold_monad.
  destruct ui as [ui|]; simpl; [|intros Hin; inv_elem Hin].
  destruct (_api self) as [a|] eqn:Ha; simpl; [|intros Hin; inv_elem Hin].
  destruct (truthy (_device_code self)); simpl; [|intros Hin; inv_elem Hin].
  rewrite Ha; simpl.
  destruct (poll_for_token a (_device_code self) 3 120) as [[[|]|e] a1];
    simpl.
  - destruct (get_homes a1) as [[[|home [|home2 homes]]|e] a2]; simpl;
      try (intros Hin; inv_elem Hin; done).
    + match goal with
      | |- context [home_options ?l ?s] =>
          pose proof (home_options_pure l s) as [Hs Ht];
            unfold state_of, trace_of in Hs, Ht;
            destruct (home_options l s) as [[[opts|e] s'] t]
      end; simpl in *; subst;
        try destruct (isinstance e "TadoXAuthError"); simpl;
        intros Hin; inv_elem Hin; done.
    + destruct (isinstance e "TadoXAuthError"); simpl;
        intros Hin; inv_elem Hin; done.
  - intros Hin; inv_elem Hin; done.
  - destruct (isinstance e "TadoXAuthError"); simpl;
      intros Hin; inv_elem Hin; done.
Qed.

Lemma ValueError_not_auth (m : string) :
  isinstance (Exn ["ValueError"; "Exception"; "BaseException"] m)
    "TadoXAuthError" = false.
Proof. reflexivity. Qed.

Lemma UnknownEntry_not_auth (m : string) :
  isinstance (UnknownEntry m) "TadoXAuthError" = false.
Proof. reflexivity. Qed.

Lemma AttributeError_not_auth (m : string) :
  isinstance (AttributeError m) "TadoXAuthError" = false.
Proof. reflexivity. Qed.

Lemma step_reauth_auth_polls_3_120 (ui : option dict)
    (self : TadoXConfigFlow) (args : list pyval) (x : option exn) :
  EvApi "poll_for_token" args x ∈ trace_of (async_step_reauth_auth ui self) ->
  args = [_device_code self; VInt 3; VInt 120].
Proof.
  unfold trace_of, async_step_reauth_auth, call_poll_for_token,
    self_api_call, _get_reauth_entry, async_update_reload_and_abort.
  unfold_monad.
  destruct ui as [ui|]; simpl; [|intros Hin; inv_elem Hin].
  destruct (_api self) as [a|] eqn:Ha; simpl; [|intros Hin; inv_elem Hin].
  destruct (truthy (_device_code self)); simpl; [|intros Hin; inv_elem Hin].
  rewrite Ha; simpl.
  destruct (poll_for_token a (_device_code self) 3 120) as [[[|]|e] a1];
    simpl.
  - destruct (reauth_entry_id self) as [eid|]; simpl.
    + destruct (find _ _) as [e|]; simpl; intros Hin; inv_elem Hin; done.
    + intros Hin; inv_elem Hin; done.
  - intros Hin; inv_elem Hin; done.
  - destruct (isinstance e "TadoXAuthError"); simpl;
      intros Hin; inv_elem Hin; done.
Qed.

(** C1: whatever run of [async_step_auth] or [async_step_reauth_auth]
    calls [poll_for_token], calls it with the flow's device code,
    [interval=3] and [timeout=120]; when that poll returns False the step
    shows its form again with the error "auth_timeout", having made the
    poll and no other call, and the stored config entries are the same as
    before. *)
Theorem poll_timeout_reshows_form
    (self : TadoXConfigFlow) (ui : dict) (a a' : TadoXApi) :
  _api self = Some a ->
  truthy (_device_code self) = true ->
  poll_for_token a (_device_code self) 3 120 = (Ok false, a') ->
  (forall ui0 self0 args x,
     EvApi "poll_for_token" args x ∈ trace_of (async_step_auth ui0 self0)
     \/ EvApi "poll_for_token" args x
          ∈ trace_of (async_step_reauth_auth ui0 self0) ->
     args = [_device_code self0; VInt 3; VInt 120])
  /\ async_step_auth (Some ui) self =
       (Ok (ShowForm "auth" SchemaEmpty {[ "base" := "auth_timeout" ]}
              (auth_placeholders self)),
        set_api (Some a') self, [polled self None])
  /\ async_step_reauth_auth (Some ui) self =
       (Ok (ShowForm "reauth_auth" SchemaEmpty {[ "base" := "auth_timeout" ]}
              (auth_placeholders self)),
        set_api (Some a') self, [polled self None])
  /\ config_entries (hass (set_api (Some a') self))
       = config_entries (hass self).
Proof.
  intros Ha Hdc Hpoll. split; [|split; [|split]].
  - intros ui0 self0 args x [Hin|Hin].
    + by eapply step_auth_polls_3_120.
    + by eapply step_reauth_auth_polls_3_120.
  - unfold async_step_auth, call_poll_for_token, self_api_call.
    unfold_monad. rewrite Ha, Hdc; simpl. rewrite Ha; simpl.
    rewrite Hpoll; simpl. reflexivity.
  - unfold async_step_reauth_auth, call_poll_for_token, self_api_call.
    unfold_monad. rewrite Ha, Hdc; simpl. rewrite Ha; simpl.
    rewrite Hpoll; simpl. reflexivity.
  - reflexivity.
Qed.

(** C3: after a poll that succeeded, [async_step_auth] goes by the number
    of homes [get_homes] returned: one home is selected and the configure
    form is shown; with more than one the step is what
    [async_step_select_home] then does, the select_home form when every
    home has an id and a name; with none the auth form is shown again with
    the error "no_homes". *)
Theorem auth_step_branches_on_home_count
    (self : TadoXConfigFlow) (ui : dict) (a a1 a2 : TadoXApi)
    (homes : list dict) :
  _api self = Some a ->
  truthy (_device_code self) = true ->
  poll_for_token a (_device_code self) 3 120 = (Ok true, a1) ->
  get_homes a1 = (Ok homes, a2) ->
  let run := async_step_auth (Some ui) self in
  let self1 := set_homes homes (set_api (Some a2) self) in
  trace_of run = [polled self None; EvApi "get_homes" [] None]
  /\ match homes with
     | [] =>
         result_of run =
           Ok (ShowForm "auth" SchemaEmpty {[ "base" := "no_homes" ]}
                 (auth_placeholders self1))
         /\ state_of run = self1
     | [home] =>
         result_of run =
           Ok (ShowForm "configure" SchemaConfigure ∅
                 {[ "default_interval" :=
                      VStr (py_str DEFAULT_SCAN_INTERVAL) ]})
         /\ state_of run = set_selected_home (Some home) self1
     | _ =>
         result_of run = result_of (async_step_select_home None self1)
         /\ state_of run = self1
         /\ (forall opts,
              result_of (home_options homes self1) = Ok opts ->
              result_of run =
                Ok (ShowForm "select_home" (SchemaSelectHome opts) ∅ ∅))
     end.
Proof.
  intros Ha Hdc Hpoll Hhomes run self1. subst run.
  unfold result_of, state_of, trace_of, async_step_auth,
    call_poll_for_token, call_get_homes, self_api_call, assign,
    async_step_configure, async_step_select_home.
  unfold_monad. rewrite Ha, Hdc; simpl. rewrite Ha; simpl.
  rewrite Hpoll; simpl. rewrite Hhomes; simpl.
  destruct homes as [|home [|home2 homes]]; simpl.
  1,2: repeat split; reflexivity.
  change (set_homes (home :: home2 :: homes)
            (set_api (Some a2) (set_api (Some a1) self))) with self1.
  pose proof (home_options_pure (home :: home2 :: homes) self1) as [Hs Ht].
  pose proof (home_options_raises (home :: home2 :: homes) self1) as He.
  unfold result_of, state_of, trace_of in Hs, Ht, He.
  destruct (home_options (home :: home2 :: homes) self1)
    as [[[opts|e] s'] t]; simpl in *; subst.
  - split; [done|]. split; [done|]. split; [done|]. by intros ? [= <-].
  - destruct (He e eq_refl) as [k ->]. simpl.
    split; [done|]. split; [done|]. split; [done|]. by intros ? [=].
Qed.

(** C6: a submission of the user step starts the device authorisation on a
    new client object.  When that returns the device code and the user
    code, the flow keeps both and the verification URI (the value under
    "verification_uri_complete" if the key is there, else the one under
    "verification_uri", else the fixed login URL) and shows the auth form;
    a [TadoXAuthError] shows the user form again with "auth_error", and an
    [aiohttp.ClientError] (that is no [TadoXAuthError]) with
    "cannot_connect". *)
Theorem user_step_starts_device_auth (self : TadoXConfigFlow) (ui : dict) :
  let a0 := new_TadoXApi (client_session (hass self)) VNone VNone None in
  let run := async_step_user (Some ui) self in
  (forall auth_data a1 dc uc,
     start_device_auth a0 = (Ok auth_data, a1) ->
     auth_data !! "device_code" = Some dc ->
     auth_data !! "user_code" = Some uc ->
     let uri :=
       match auth_data !! "verification_uri_complete" with
       | Some v => v
       | None =>
           match auth_data !! "verification_uri" with
           | Some v => v
           | None => VStr "https://login.tado.com/oauth2/device"
           end
       end in
     _device_code (state_of run) = dc
     /\ _user_code (state_of run) = uc
     /\ _verification_uri (state_of run) = uri
     /\ _api (state_of run) = Some a1
     /\ result_of run =
          Ok (ShowForm "auth" SchemaEmpty ∅
                {[ "user_code" := py_or uc (VStr "");
                   "verification_uri" := py_or uri (VStr "") ]})
     /\ trace_of run = [EvApi "start_device_auth" [] None])
  /\ (forall e a1,
       start_device_auth a0 = (Raise e, a1) ->
       isinstance e "TadoXAuthError" = true ->
       result_of run = Ok (user_form {[ "base" := "auth_error" ]})
       /\ state_of run = set_api (Some a1) self
       /\ trace_of run =
            [EvApi "start_device_auth" [] (Some e);
             EvLog "error" ("Failed to start device auth: " +:+ exn_msg e)])
  /\ (forall e a1,
       start_device_auth a0 = (Raise e, a1) ->
       isinstance e "TadoXAuthError" = false ->
       isinstance e "ClientError" = true ->
       result_of run = Ok (user_form {[ "base" := "cannot_connect" ]})
       /\ state_of run = set_api (Some a1) self
       /\ trace_of run =
            [EvApi "start_device_auth" [] (Some e);
             EvLog "error" ("Network error: " +:+ exn_msg e)]).
Proof.
  intros a0 run. subst run.
  unfold result_of, state_of, trace_of, async_step_user,
    call_start_device_auth, self_api_call, assign, async_step_auth.
  unfold_monad. simpl. fold a0.
  split; [|split].
  - intros auth_data a1 dc uc Hstart Hdc Huc. rewrite Hstart; simpl.
    rewrite Hdc; simpl. rewrite Huc; simpl.
    repeat split; try reflexivity.
  - intros e a1 Hstart Hauth. rewrite Hstart; simpl. rewrite Hauth; simpl.
    done.
  - intros e a1 Hstart Hauth Hclient. rewrite Hstart; simpl.
    rewrite Hauth, Hclient; simpl. done.
Qed.
End ConfigFlowProperties.

(** ** Stored tokens *)
Section TokenFrame.
Context `{CM : CoordinatorModule} {KM : ConstModule} {HM : HostModule}.
Import ConfigFlow.

Lemma carried_not_token (k : string) :
  NoDup conf_keys -> k ∈ carried_keys -> k ∉ token_keys.
Proof.
  unfold conf_keys, carried_keys, token_keys. intros Hnd Hk Ht.
  repeat (apply NoDup_cons in Hnd as [? Hnd]). clear Hnd.
  set_unfold. intuition congruence.
Qed.

Lemma token_keys_NoDup : NoDup conf_keys -> NoDup token_keys.
Proof.
  unfold conf_keys, token_keys. intros Hnd.
  repeat (apply NoDup_cons in Hnd as [? Hnd]). clear Hnd.
  repeat (apply NoDup_cons; split; [set_unfold; intuition congruence|]).
  apply NoDup_nil_2.
Qed.

Lemma refreshed_data_tokens_replaced (old : dict) (a : TadoXApi) :
  NoDup token_keys -> tokens_replaced old (refreshed_data old a) a.
Proof.
  unfold token_keys, tokens_replaced, refreshed_data. intros Hnd.
  repeat (apply NoDup_cons in Hnd as [? Hnd]). clear Hnd.
  assert (CONF_REFRESH_TOKEN <> CONF_ACCESS_TOKEN)
    by (set_unfold; intuition congruence).
  assert (CONF_TOKEN_EXPIRY <> CONF_ACCESS_TOKEN)
    by (set_unfold; intuition congruence).
  assert (CONF_TOKEN_EXPIRY <> CONF_REFRESH_TOKEN)
    by (set_unfold; intuition congruence).
  split; [|split; [|split]].
  - rewrite 2!lookup_insert_ne by done. apply lookup_insert_eq.
  - rewrite lookup_insert_ne by done. apply lookup_insert_eq.
  - rewrite lookup_insert_eq. unfold token_expiry_iso.
    by destruct (token_expiry a).
  - intros k Hk. rewrite 3!lookup_insert_ne; [done|..];
      intros Heq; apply Hk; rewrite <- Heq; set_unfold; tauto.
Qed.

(** C4: with the nine keys of the entry data distinct, both the setup that
    refreshed its tokens and the reauthorisation that got its tokens leave
    the stored entries as they were but for the data of the entry at hand,
    which then has the client object's access token and refresh token and
    the ISO string of the client object's token expiry (None when it has
    no expiry) under the three token keys and under every other key what
    it had: the home id and name, the scan interval, the geofencing flag
    and the two temperatures among them. *)
Theorem token_refresh_keeps_other_fields :
  NoDup conf_keys ->
  (forall (entry : ConfigEntry) (h : HomeAssistant) hid a1,
     data entry !! CONF_HOME_ID = Some hid ->
     refresh_access_token (Init.entry_api (client_session h) entry)
       = (Ok tt, a1) ->
     let d := refreshed_data (data entry) a1 in
     config_entries (state_of (Init.async_setup_entry entry h)) =
       (fun e => if String.eqb (entry_id e) (entry_id entry)
                 then with_data d e else e) <$> config_entries h
     /\ EvUpdateEntry (entry_id entry) d
          ∈ trace_of (Init.async_setup_entry entry h)
     /\ tokens_replaced (data entry) d a1
     /\ (forall k, k ∈ carried_keys -> d !! k = data entry !! k))
  /\ (forall (self : TadoXConfigFlow) (ui : dict) a a1 eid entry,
       _api self = Some a ->
       truthy (_device_code self) = true ->
       poll_for_token a (_device_code self) 3 120 = (Ok true, a1) ->
       reauth_entry_id self = Some eid ->
       List.find (fun e => String.eqb (entry_id e) eid)
         (config_entries (hass self)) = Some entry ->
       let d := refreshed_data (data entry) a1 in
       let run := async_step_reauth_auth (Some ui) self in
       result_of run = Ok (AbortFlow "reauth_successful")
       /\ config_entries (hass (state_of run)) =
            (fun e => if String.eqb (entry_id e) (entry_id entry)
                      then with_data d e else e)
              <$> config_entries (hass self)
       /\ trace_of run =
            [polled self None; EvUpdateEntry (entry_id entry) d;
             EvScheduleReload (entry_id entry)]
       /\ tokens_replaced (data entry) d a1
       /\ (forall k, k ∈ carried_keys -> d !! k = data entry !! k)).
Proof.
  intros Hnd.
  assert (Hframe : forall old a,
            tokens_replaced old (refreshed_data old a) a
            /\ (forall k, k ∈ carried_keys ->
                   refreshed_data old a !! k = old !! k)).
  { intros old a.
    pose proof (refreshed_data_tokens_replaced old a
                  (token_keys_NoDup Hnd)) as Hrep.
    split; [done|]. intros k Hk. apply Hrep.
    by apply carried_not_token. }
  split.
  - intros entry h hid a1 Hid Href d.
    pose proof (async_setup_entry_run entry h) as Hrun.
    destruct Hrun as [Hid' | ? e a1' Hid' Href' | ? a1' r h' rest _ Href' Htail];
      [congruence..|].
    rewrite Href in Href'. simplify_eq.
    repeat split; try apply Hframe.
    + by destruct Htail.
    + apply elem_of_cons; right. apply elem_of_cons; by left.
  - intros self ui a a1 eid entry Ha Hdc Hpoll Heid Hfind d run.
    subst run.
    unfold result_of, state_of, trace_of, async_step_reauth_auth,
      call_poll_for_token, self_api_call, _get_reauth_entry,
      async_update_reload_and_abort.
    unfold_monad. rewrite Ha, Hdc; simpl. rewrite Ha; simpl.
    rewrite Hpoll; simpl. rewrite Heid; simpl. rewrite Hfind; simpl.
    repeat split; try apply Hframe.
Qed.
End TokenFrame.

(** ** What a computation keeps *)
Section Keeps.
Context `{PyRuntime} {S : Type} (P : S -> Prop).

Lemma keeps_ret {A} (a : A) : keeps P (ret a).
Proof. by intros s. Qed.
Lemma keeps_raise {A} (e : exn) : keeps P (raise (A := A) e).
Proof. by intros s. Qed.
Lemma keeps_get : keeps P get.
Proof. by intros s. Qed.
Lemma keeps_emit (ev : event) : keeps P (emit ev).
Proof. by intros s. Qed.
Lemma keeps_log (level message : string) : keeps P (log level message).
Proof. by intros s. Qed.
Lemma keeps_put (s' : S) : P s' -> keeps P (put s').
Proof. by intros ? s. Qed.
Lemma keeps_bind {A B} (m : M S A) (k : A -> M S B) :
  keeps P m -> (forall a, keeps P (k a)) -> keeps P (bind m k).
Proof.
  intros Hm Hk s Hs. specialize (Hm s Hs). unfold state_of, bind in *.
  destruct (m s) as [[[a|e] s'] t]; simpl in *; [|done].
  specialize (Hk a s' Hm). unfold state_of in Hk.
  by destruct (k a s') as [[r s''] t'].
Qed.
Lemma keeps_bind_get {B} (k : S -> M S B) :
  (forall s0, P s0 -> keeps P (k s0)) -> keeps P (bind get k).
Proof.
  intros Hk s Hs. specialize (Hk s Hs s Hs). unfold state_of, bind, get in *.
  simpl. by destruct (k s s) as [[r s''] t'].
Qed.
Lemma keeps_try_except {A} (body : M S A) (handler : exn -> M S A) :
  keeps P body -> (forall e, keeps P (handler e)) ->
  keeps P (try_except body handler).
Proof.
  intros Hm Hk s Hs. specialize (Hm s Hs). unfold state_of, try_except in *.
  destruct (body s) as [[[a|e] s'] t]; simpl in *; [done|].
  specialize (Hk e s' Hm). unfold state_of in Hk.
  by destruct (handler e s') as [[r s''] t'].
Qed.
Lemma keeps_subscript (d : dict) (k : string) : keeps P (subscript d k).
Proof.
  unfold subscript. destruct (d !! k); [apply keeps_ret | apply keeps_raise].
Qed.
End Keeps.

(** ** Unique ids *)
Section UniqueId.
Context `{AM : ApiModule} {KM : ConstModule}.
Import ConfigFlow.

Lemma already_configured_iff (uid : string) (entries : list ConfigEntry) :
  already_configured uid entries = true <->
  exists entry, entry ∈ entries /\ unique_id entry = Some uid.
Proof.
  induction entries as [|entry entries IH]; simpl.
  - split; [done|]. intros (? & Hin & _). by apply elem_of_nil in Hin.
  - case_bool_decide as Hu.
    + split; [|done]. intros _. exists entry. split; [left|done].
    + rewrite IH. split.
      * intros (e & Hin & He). exists e. split; [by right|done].
      * intros (e & Hin & He). apply elem_of_cons in Hin as [->|Hin];
          [done|]. by exists e.
Qed.

Lemma store_update_unique_ids (eid : string) (d : dict) (h : HomeAssistant) :
  unique_id <$> config_entries (store_update eid d h)
  = unique_id <$> config_entries h.
Proof.
  unfold store_update. simpl. rewrite <- list_fmap_compose.
  apply list_fmap_ext. intros i e _. simpl.
  by destruct (String.eqb (entry_id e) eid).
Qed.

Ltac keeps_auto :=
  repeat (lazy beta;
          match goal with
          | |- keeps _ (ret _) => apply keeps_ret
          | |- keeps _ (raise _) => apply keeps_raise
          | |- keeps _ (emit _) => apply keeps_emit
          | |- keeps _ (log _ _) => apply keeps_log
          | |- keeps _ (subscript _ _) => apply keeps_subscript
          | |- keeps _ (bind get _) => apply keeps_bind_get; intros ? ?
          | |- keeps _ (bind _ _) => apply keeps_bind; [|intros ?]
          | |- keeps _ (try_except _ _) =>
              apply keeps_try_except; [|intros ?]
          | |- keeps _ (match ?x with _ => _ end) => destruct x
          end).

Section Steps.
Variable v : option string * list (option string).
Let P (self : TadoXConfigFlow) : Prop := uid_view self = v.

Lemma keeps_assign (setter : TadoXConfigFlow -> TadoXConfigFlow) :
  (forall s, uid_view (setter s) = uid_view s) -> keeps P (assign setter).
Proof.
  intros Hset. unfold assign. apply keeps_bind_get. intros s0 Hs0.
  apply keeps_put. unfold P. by rewrite Hset.
Qed.

Lemma keeps_self_api_call {A} (method : string) (args : list pyval)
    (f : TadoXApi -> outcome A * TadoXApi) :
  keeps P (self_api_call method args f).
Proof.
  unfold self_api_call. apply keeps_bind_get. intros s0 Hs0.
  destruct (_api s0); [|apply keeps_raise].
  apply keeps_bind; [by apply keeps_put|]. intros _.
  apply keeps_bind; [apply keeps_emit|]. intros _.
  destruct (f t).1; [apply keeps_ret | apply keeps_raise].
Qed.

Lemma keeps_subscript_home (home : option dict) (k : string) :
  keeps P (subscript_home home k).
Proof. unfold subscript_home. destruct home; keeps_auto. Qed.

Lemma keeps_create_entry home si ge mn mx :
  keeps P (_create_entry home si ge mn mx).
Proof.
  unfold _create_entry. keeps_auto; apply keeps_subscript_home.
Qed.

Lemma keeps_step_configure ui : keeps P (async_step_configure ui).
Proof.
  unfold async_step_configure. keeps_auto. apply keeps_create_entry.
Qed.

Lemma keeps_select_home_loop hid homes :
  keeps P (select_home_loop hid homes).
Proof.
  induction homes as [|home homes IH]; simpl; keeps_auto; try done;
    first [by apply keeps_assign | apply keeps_step_configure].
Qed.

Lemma keeps_home_options homes : keeps P (home_options homes).
Proof. induction homes as [|home homes IH]; simpl; keeps_auto; done. Qed.

Lemma keeps_step_select_home ui : keeps P (async_step_select_home ui).
Proof.
  unfold async_step_select_home. keeps_auto;
    first [apply keeps_select_home_loop | apply keeps_home_options].
Qed.

Lemma keeps_step_auth ui : keeps P (async_step_auth ui).
Proof.
  unfold async_step_auth, call_poll_for_token, call_get_homes.
  keeps_auto;
    first [ apply keeps_self_api_call | by apply keeps_assign
          | apply keeps_step_configure | apply keeps_step_select_home ].
Qed.

Lemma keeps_step_user ui : keeps P (async_step_user ui).
Proof.
  unfold async_step_user, call_start_device_auth.
  keeps_auto;
    first [ apply keeps_self_api_call | by apply keeps_assign
          | apply keeps_step_auth ].
Qed.

Lemma keeps_get_reauth_entry : keeps P _get_reauth_entry.
Proof. unfold _get_reauth_entry. keeps_auto. Qed.

Lemma keeps_update_reload_and_abort entry d :
  keeps P (async_update_reload_and_abort entry d).
Proof.
  unfold async_update_reload_and_abort. keeps_auto.
  apply keeps_put. unfold P, uid_view in *.
  match goal with Hs : _ = v |- _ => rewrite <- Hs end.
  f_equal. apply store_update_unique_ids.
Qed.

Lemma keeps_step_reauth_auth ui : keeps P (async_step_reauth_auth ui).
Proof.
  unfold async_step_reauth_auth, call_poll_for_token.
  keeps_auto;
    first [ apply keeps_self_api_call | apply keeps_get_reauth_entry
          | apply keeps_update_reload_and_abort ].
Qed.

Lemma keeps_step_reauth_confirm ui : keeps P (async_step_reauth_confirm ui).
Proof.
  unfold async_step_reauth_confirm, call_start_device_auth.
  keeps_auto;
    first [ apply keeps_self_api_call | by apply keeps_assign
          | apply keeps_step_reauth_auth ].
Qed.

Lemma keeps_run_step st : keeps P (run_step st).
Proof.
  destruct st; simpl;
    auto using keeps_step_user, keeps_step_auth, keeps_step_select_home,
      keeps_step_configure, keeps_step_reauth_confirm, keeps_step_reauth_auth.
  apply keeps_step_reauth_confirm.
Qed.
End Steps.

Lemma run_step_uid_view (st : step) (self : TadoXConfigFlow) :
  uid_view (state_of (run_step st self)) = uid_view self.
Proof. by apply (keeps_run_step (uid_view self)). Qed.

Lemma no_unique_ids_view (self : TadoXConfigFlow) :
  no_unique_ids self <->
  (uid_view self).1 = None /\ Forall (eq None) (uid_view self).2.
Proof.
  unfold no_unique_ids, uid_view. simpl. rewrite Forall_fmap.
  split; intros [? Hall]; (split; [done|]);
    eapply Forall_impl; [exact Hall | | exact Hall | ]; simpl; done.
Qed.

Lemma run_steps_no_unique_ids (sts : list (step * string))
    (self : TadoXConfigFlow) :
  no_unique_ids self -> no_unique_ids (run_steps sts self).
Proof.
  revert self. induction sts as [|[st new_id] sts IH]; intros self Hself;
    [done|].
  simpl. pose proof (run_step_uid_view st self) as Hview.
  unfold state_of in Hview.
  destruct (run_step st self) as [[r self'] tr]; simpl in *.
  apply IH.
  assert (Hself' : no_unique_ids self').
  { apply no_unique_ids_view. rewrite Hview. by apply no_unique_ids_view. }
  destruct Hself' as [Hflow Hall]. split; [done|].
  destruct r as [[| |t d]|e]; simpl; try done.
  apply Forall_app. split; [done|]. by repeat constructor.
Qed.

(** C8: with a client object and a home that has an id, [_create_entry]
    aborts with "already_configured" exactly when a stored entry has the
    unique id "tado_x_" followed by the home's id.  No step of the flow
    changes the flow's unique id or that of a stored entry, so a flow
    driven from [__init__] over entries without unique ids leaves them
    without, the entries it creates included; and over such entries
    [_create_entry] creates an entry for every home that has a name,
    whatever home ids the stored entries hold. *)
Theorem create_entry_duplicate_check
    (self : TadoXConfigFlow) (home : dict) (a : TadoXApi) (hid : pyval)
    (si ge mn mx : pyval) :
  _api self = Some a ->
  home !! "id" = Some hid ->
  let run := _create_entry (Some home) si ge mn mx self in
  (result_of run = Ok (AbortFlow "already_configured") <->
     exists entry, entry ∈ config_entries (hass self)
              /\ unique_id entry = Some ("tado_x_" +:+ py_str hid))
  /\ (forall st self0,
       flow_unique_id (state_of (run_step st self0)) = flow_unique_id self0
       /\ unique_id <$> config_entries (hass (state_of (run_step st self0)))
          = unique_id <$> config_entries (hass self0))
  /\ (forall sts h reauth,
       Forall (fun e => unique_id e = None) (config_entries h) ->
       Forall (fun e => unique_id e = None)
         (config_entries (hass (run_steps sts (__init__ h reauth)))))
  /\ (Forall (fun e => unique_id e = None) (config_entries (hass self)) ->
     forall name, home !! "name" = Some name ->
     exists d, run = (Ok (CreateEntry name d), self, [])
          /\ d !! CONF_MAX_TEMP = Some mx).
Proof.
  intros Ha Hid run. subst run.
  unfold result_of, _create_entry, subscript_home. unfold_monad.
  rewrite Ha; simpl. rewrite Hid; simpl.
  split; [|split; [|split]].
  - rewrite <- already_configured_iff.
    destruct (already_configured _ _); simpl; [done|].
    split; [|done]. destruct (home !! "name"); simpl; done.
  - intros st self0. pose proof (run_step_uid_view st self0) as Hv.
    unfold uid_view in Hv. by simplify_eq.
  - intros sts h reauth Hall.
    by apply (run_steps_no_unique_ids sts (__init__ h reauth)).
  - intros Hall name Hname.
    destruct (already_configured _ _) eqn:Hdup; simpl.
    + apply already_configured_iff in Hdup as (e & Hin & He).
      rewrite Forall_forall in Hall. by rewrite (Hall e Hin) in He.
    + rewrite Hname; simpl. eexists. split; [reflexivity|].
      apply lookup_insert_eq.
Qed.
End UniqueId.

(** * Further properties *)

(** ** [__init__.py]: setting an entry up *)
Section InitExtras.
Context `{CM : CoordinatorModule} {KM : ConstModule} {HM : HostModule}.
Import Init.

(** [hass.data[DOMAIN]] once [async_setup] ran, and what it holds: the
    YAML configuration of the domain under "yaml_config" when there is
    one, and under every other key what was there before. *)
Theorem async_setup_prepares_domain
    (config : gmap string dict) (h : HomeAssistant) :
  let run := async_setup config h in
  let before := default ∅ (hass_data h !! DOMAIN) in
  result_of run = Ok true
  /\ trace_of run = []
  /\ config_entries (state_of run) = config_entries h
  /\ (exists dd,
       hass_data (state_of run) !! DOMAIN = Some dd
       /\ dd !! "yaml_config" =
            match config !! DOMAIN with
            | Some cfg => Some (HYaml cfg)
            | None => before !! "yaml_config"
            end
       /\ forall k, k <> "yaml_config" -> dd !! k = before !! k)
  /\ (forall dom, dom <> DOMAIN ->
       hass_data (state_of run) !! dom = hass_data h !! dom).
Proof.
  intros run before. subst run before.
  unfold async_setup, domain_store, setdefault_domain, result_of, state_of,
    trace_of.
  unfold_monad.
  destruct (hass_data h !! DOMAIN) as [dd|] eqn:Hdd;
    destruct (config !! DOMAIN) as [cfg|] eqn:Hcfg; simpl;
    rewrite ?Hdd, ?lookup_insert_eq; simpl.
  all: split; [reflexivity|]; split; [reflexivity|];
    split; [reflexivity|]; split.
  all: try (intros dom Hdom; rewrite ?lookup_insert_ne by congruence;
            reflexivity).
  - eexists. split; [apply lookup_insert_eq|].
    split; [apply lookup_insert_eq|].
    intros k Hk. by apply lookup_insert_ne.
  - eexists. split; [reflexivity|]. done.
  - eexists. split; [apply lookup_insert_eq|].
    split; [apply lookup_insert_eq|].
    intros k Hk. by apply lookup_insert_ne.
  - eexists. split; [reflexivity|]. done.
Qed.

(** A setup that gets past the token refresh registers the home device
    and only then builds the coordinator, from the refreshed client
    object, the stored home id, the stored home name or "Tado Home <id>",
    and a scan interval that is the YAML one if there is one, else the
    stored one, else the default; the first refresh is called on that
    coordinator. *)
Theorem setup_builds_coordinator_from_entry
    (entry : ConfigEntry) (h : HomeAssistant) (hid : pyval) (a1 : TadoXApi)
    (dd : gmap string hass_val) :
  data entry !! CONF_HOME_ID = Some hid ->
  refresh_access_token (entry_api (client_session h) entry) = (Ok tt, a1) ->
  hass_data h !! DOMAIN = Some dd ->
  (forall c, dd !! "yaml_config" <> Some (HCoordinator c)) ->
  CONF_SCAN_INTERVAL ∉ token_keys ->
  let yaml := match dd !! "yaml_config" with
              | Some (HYaml cfg) => cfg
              | _ => ∅
              end in
  let interval :=
    match yaml !! CONF_SCAN_INTERVAL with
    | Some v => v
    | None =>
        match data entry !! CONF_SCAN_INTERVAL with
        | Some v => v
        | None => DEFAULT_SCAN_INTERVAL
        end
    end in
  let name := match data entry !! CONF_HOME_NAME with
              | Some v => v
              | None => VStr ("Tado Home " +:+ py_str hid)
              end in
  exists c rest,
    trace_of (async_setup_entry entry h) =
      ([EvApi "refresh_access_token" [] None;
        EvUpdateEntry (entry_id entry) (refreshed_data (data entry) a1);
        EvLog "info"
          ("Using scan interval: " +:+ py_str interval +:+ " seconds");
        EvDeviceRegistry (entry_id entry) (DOMAIN, py_str hid) name
          "Tado" "Tado X Home";
        EvCreateCoordinator hid;
        EvFirstRefresh (raised_of (async_config_entry_first_refresh c).1)]
       ++ rest)%list
    /\ api c = a1 /\ home_id c = hid /\ home_name c = name
    /\ scan_interval c = interval /\ coordinator_data c = None.
Proof.
  intros Hid Href Hdd Hyaml Hkey yaml interval name.
  assert (Hsi : refreshed_data (data entry) a1 !! CONF_SCAN_INTERVAL
                = data entry !! CONF_SCAN_INTERVAL).
  { unfold refreshed_data, token_keys in *.
    rewrite !lookup_insert_ne; [done|..]; intros Heq; apply Hkey;
      rewrite <- Heq; set_unfold; tauto. }
  unfold trace_of, async_setup_entry, api_call, async_update_entry,
    domain_store.
  unfold_monad. simpl. rewrite Hid; simpl. rewrite Href; simpl.
  rewrite Hdd; simpl.
  fold (refreshed_data (data entry) a1).
  assert (Hcfg : exists cfg,
            yaml = cfg /\
            (dd !! "yaml_config" = Some (HYaml cfg)
             \/ dd !! "yaml_config" = None /\ cfg = ∅)).
  { subst yaml. destruct (dd !! "yaml_config") as [[cfg|c]|] eqn:Hy; eauto.
    by destruct (Hyaml c). }
  destruct Hcfg as (cfg & Hcfg & Hy).
  assert (Hint : dict_get_or cfg CONF_SCAN_INTERVAL
                   (dict_get_or (refreshed_data (data entry) a1)
                      CONF_SCAN_INTERVAL DEFAULT_SCAN_INTERVAL) = interval).
  { subst interval. rewrite Hcfg. unfold dict_get_or. rewrite Hsi.
    destruct (cfg !! CONF_SCAN_INTERVAL); [done|].
    by destruct (data entry !! CONF_SCAN_INTERVAL). }
  assert (Hname : dict_get_or (data entry) CONF_HOME_NAME
                    (VStr ("Tado Home " +:+ py_str hid)) = name).
  { subst name. unfold dict_get_or.
    by destruct (data entry !! CONF_HOME_NAME). }
  destruct Hy as [Hy | [Hy ->]]; rewrite Hy; simpl; rewrite Hint, Hname.
  all: match goal with
       | |- context [async_config_entry_first_refresh ?c] =>
           exists c; destruct (async_config_entry_first_refresh c)
                       as [[[]|e] c'] eqn:Hfirst; simpl
       end.
  all: try (destruct (isinstance e "TadoXApiError"); simpl;
            exists []; rewrite ?Hint, ?Hname; by repeat split).
  all: unfold setdefault_domain; simpl; rewrite Hdd; simpl; rewrite ?Hdd;
    simpl.
  all: match goal with
       | |- context [async_forward_entry_setups ?a ?b ?c] =>
           destruct (async_forward_entry_setups a b c) as [[]|e]; simpl
       end.
  all: eexists [_]; rewrite ?Hint, ?Hname; by repeat split.
Qed.

(** Setups that end before anything is stored: an entry without a home id
    raises [KeyError] before the client is called, and a refresh that
    raises something other than a [TadoXAuthError] ends the setup with
    that very exception, unlogged; either way the host is as before. *)
Theorem setup_fails_early_without_side_effects
    (entry : ConfigEntry) (h : HomeAssistant) :
  (data entry !! CONF_HOME_ID = None ->
     async_setup_entry entry h = (Raise (KeyError CONF_HOME_ID), h, []))
  /\ (forall hid e a1,
       data entry !! CONF_HOME_ID = Some hid ->
       refresh_access_token (entry_api (client_session h) entry)
         = (Raise e, a1) ->
       isinstance e "TadoXAuthError" = false ->
       async_setup_entry entry h =
         (Raise e, h, [EvApi "refresh_access_token" [] (Some e)])).
Proof.
  unfold async_setup_entry, api_call. unfold_monad. simpl. split.
  - intros Hid. by rewrite Hid.
  - intros hid e a1 Hid Href Hauth. rewrite Hid; simpl.
    rewrite Href; simpl. by rewrite Hauth.
Qed.
End InitExtras.

(** ** [config_flow.py]: the entry a flow creates *)
Lemma NoDup_lookup_ne {A} (l : list A) (i j : nat) (x y : A) :
  NoDup l -> l !! i = Some x -> l !! j = Some y -> i <> j -> x <> y.
Proof. intros Hnd Hi Hj Hij ->. apply Hij. by eapply NoDup_lookup. Qed.

(** Puts in the context that the keys at two places of [conf_keys] differ,
    for every two places. *)
Ltac keys_differ_from Hnd i j :=
  lazymatch j with
  | 9%nat => idtac
  | _ =>
      try (let Hne := fresh "Hne" in
           pose proof (NoDup_lookup_ne conf_keys i j _ _ Hnd
                         eq_refl eq_refl ltac:(discriminate)) as Hne);
      let j' := constr:(S j) in keys_differ_from Hnd i j'
  end.
Ltac keys_differ Hnd :=
  let rec go i :=
    lazymatch i with
    | 9%nat => idtac
    | _ => keys_differ_from Hnd i 0%nat;
           let i' := constr:(S i) in go i'
    end in
  go 0%nat.

Section FlowExtras.
Context `{CM : CoordinatorModule} {KM : ConstModule} {HM : HostModule}.
Import ConfigFlow.

(** The data of the entry [_create_entry] asks the host to create *)
Lemma create_entry_result
    (self : TadoXConfigFlow) (home : dict) (a : TadoXApi)
    (hid hname si ge mn mx : pyval) :
  _api self = Some a ->
  home !! "id" = Some hid ->
  home !! "name" = Some hname ->
  already_configured ("tado_x_" +:+ py_str hid) (config_entries (hass self))
    = false ->
  _create_entry (Some home) si ge mn mx self =
    (Ok (CreateEntry hname
           (<[CONF_MAX_TEMP := mx]>
           (<[CONF_MIN_TEMP := mn]>
           (<[CONF_GEOFENCING_ENABLED := ge]>
           (<[CONF_SCAN_INTERVAL := si]>
           (<[CONF_TOKEN_EXPIRY := token_expiry_iso a]>
           (<[CONF_REFRESH_TOKEN := refresh_token a]>
           (<[CONF_ACCESS_TOKEN := access_token a]>
           (<[CONF_HOME_NAME := hname]>
           (<[CONF_HOME_ID := hid]> ∅)))))))))), self, []).
Proof.
  intros Ha Hid Hname Hdup.
  unfold _create_entry, subscript_home. unfold_monad.
  rewrite Ha; simpl. rewrite Hid; simpl. rewrite Hdup; simpl.
  rewrite Hname; simpl. reflexivity.
Qed.

Lemma configure_step_run
    (self : TadoXConfigFlow) (ui home : dict) (a : TadoXApi)
    (hid hname : pyval) :
  _api self = Some a ->
  _selected_home self = Some home ->
  home !! "id" = Some hid ->
  home !! "name" = Some hname ->
  Forall (fun e => unique_id e = None) (config_entries (hass self)) ->
  async_step_configure (Some ui) self =
    (Ok (CreateEntry hname
           (<[CONF_MAX_TEMP := default MAX_TEMP (ui !! CONF_MAX_TEMP)]>
           (<[CONF_MIN_TEMP := default MIN_TEMP (ui !! CONF_MIN_TEMP)]>
           (<[CONF_GEOFENCING_ENABLED :=
                default (VBool false) (ui !! CONF_GEOFENCING_ENABLED)]>
           (<[CONF_SCAN_INTERVAL :=
                default DEFAULT_SCAN_INTERVAL (ui !! CONF_SCAN_INTERVAL)]>
           (<[CONF_TOKEN_EXPIRY := token_expiry_iso a]>
           (<[CONF_REFRESH_TOKEN := refresh_token a]>
           (<[CONF_ACCESS_TOKEN := access_token a]>
           (<[CONF_HOME_NAME := hname]>
           (<[CONF_HOME_ID := hid]> ∅)))))))))), self, []).
Proof.
  intros Ha Hsel Hid Hname Hall.
  assert (Hdup : already_configured ("tado_x_" +:+ py_str hid)
                   (config_entries (hass self)) = false).
  { destruct (already_configured _ _) eqn:Hd; [|done].
    apply already_configured_iff in Hd as (e & Hin & He).
    rewrite Forall_forall in Hall. by rewrite (Hall e Hin) in He. }
  unfold async_step_configure. unfold_monad. simpl. rewrite Hsel.
  rewrite (create_entry_result self home a hid hname _ _ _ _
             Ha Hid Hname Hdup). reflexivity.
Qed.

(** With the nine keys distinct, the entry the configure step creates is
    titled with the home's name and holds exactly the nine fields: the
    home's id and name, the client object's tokens and the ISO string of
    its expiry (None without one), and the submitted scan interval, geofencing flag and temperatures, each
    replaced by its default when the submission leaves it out. *)
Theorem configure_step_creates_entry_with_defaults
    (self : TadoXConfigFlow) (ui home : dict) (a : TadoXApi)
    (hid hname : pyval) :
  NoDup conf_keys ->
  _api self = Some a ->
  _selected_home self = Some home ->
  home !! "id" = Some hid ->
  home !! "name" = Some hname ->
  Forall (fun e => unique_id e = None) (config_entries (hass self)) ->
  exists d,
    async_step_configure (Some ui) self = (Ok (CreateEntry hname d), self, [])
    /\ dom d = list_to_set conf_keys
    /\ d !! CONF_HOME_ID = Some hid
    /\ d !! CONF_HOME_NAME = Some hname
    /\ d !! CONF_ACCESS_TOKEN = Some (access_token a)
    /\ d !! CONF_REFRESH_TOKEN = Some (refresh_token a)
    /\ d !! CONF_TOKEN_EXPIRY
         = Some (match token_expiry a with
                 | Some t => VStr (isoformat t)
                 | None => VNone
                 end)
    /\ d !! CONF_SCAN_INTERVAL
         = Some (default DEFAULT_SCAN_INTERVAL (ui !! CONF_SCAN_INTERVAL))
    /\ d !! CONF_GEOFENCING_ENABLED
         = Some (default (VBool false) (ui !! CONF_GEOFENCING_ENABLED))
    /\ d !! CONF_MIN_TEMP = Some (default MIN_TEMP (ui !! CONF_MIN_TEMP))
    /\ d !! CONF_MAX_TEMP = Some (default MAX_TEMP (ui !! CONF_MAX_TEMP)).
Proof.
  intros Hnd Ha Hsel Hid Hname Hall.
  eexists. split.
  { exact (configure_step_run self ui home a hid hname
             Ha Hsel Hid Hname Hall). }
  split.
  { rewrite !dom_insert_L, dom_empty_L. unfold conf_keys. simpl.
    apply set_eq. intros k. rewrite !elem_of_union, !elem_of_singleton.
    rewrite elem_of_empty. tauto. }
  keys_differ Hnd.
  repeat split; rewrite ?lookup_insert_ne by done; apply lookup_insert_eq.
Qed.

End FlowExtras.

(** ** [config_flow.py]: the steps one by one *)
Ltac keeps_flow :=
  repeat (lazy beta;
          match goal with
          | |- keeps _ (ret _) => apply keeps_ret
          | |- keeps _ (raise _) => apply keeps_raise
          | |- keeps _ (emit _) => apply keeps_emit
          | |- keeps _ (log _ _) => apply keeps_log
          | |- keeps _ (subscript _ _) => apply keeps_subscript
          | |- keeps _ (bind get _) => apply keeps_bind_get; intros ? ?
          | |- keeps _ (bind _ _) => apply keeps_bind; [|intros ?]
          | |- keeps _ (try_except _ _) =>
              apply keeps_try_except; [|intros ?]
          | |- keeps _ (match ?x with _ => _ end) => destruct x
          end).

Section HostUntouched.
Context `{AM : ApiModule} {KM : ConstModule}.
Import ConfigFlow.

Variable h : HomeAssistant.
Let P (self : TadoXConfigFlow) : Prop := hass self = h.

Lemma host_keeps_assign (setter : TadoXConfigFlow -> TadoXConfigFlow) :
  (forall s, hass (setter s) = hass s) -> keeps P (assign setter).
Proof.
  intros Hset. unfold assign. apply keeps_bind_get. intros s0 Hs0.
  apply keeps_put. unfold P. by rewrite Hset.
Qed.

Lemma host_keeps_self_api_call {A} (method : string) (args : list pyval)
    (f : TadoXApi -> outcome A * TadoXApi) :
  keeps P (self_api_call method args f).
Proof.
  unfold self_api_call. apply keeps_bind_get. intros s0 Hs0.
  destruct (_api s0) as [a|]; [|apply keeps_raise].
  apply keeps_bind; [by apply keeps_put|]. intros _.
  apply keeps_bind; [apply keeps_emit|]. intros _.
  destruct (f a).1; [apply keeps_ret | apply keeps_raise].
Qed.

Lemma host_keeps_subscript_home (home : option dict) (k : string) :
  keeps P (subscript_home home k).
Proof. unfold subscript_home. destruct home; keeps_flow. Qed.

Lemma host_keeps_create_entry home si ge mn mx :
  keeps P (_create_entry home si ge mn mx).
Proof.
  unfold _create_entry. keeps_flow; apply host_keeps_subscript_home.
Qed.

Lemma host_keeps_step_configure ui : keeps P (async_step_configure ui).
Proof.
  unfold async_step_configure. keeps_flow. apply host_keeps_create_entry.
Qed.

Lemma host_keeps_select_home_loop v homes :
  keeps P (select_home_loop v homes).
Proof.
  induction homes as [|home homes IH]; simpl; keeps_flow; try done;
    first [by apply host_keeps_assign | apply host_keeps_step_configure].
Qed.

Lemma host_keeps_home_options homes : keeps P (home_options homes).
Proof. induction homes as [|home homes IH]; simpl; keeps_flow; done. Qed.

Lemma host_keeps_step_select_home ui : keeps P (async_step_select_home ui).
Proof.
  unfold async_step_select_home. keeps_flow;
    first [apply host_keeps_select_home_loop | apply host_keeps_home_options].
Qed.

Lemma host_keeps_step_auth ui : keeps P (async_step_auth ui).
Proof.
  unfold async_step_auth, call_poll_for_token, call_get_homes.
  keeps_flow;
    first [ apply host_keeps_self_api_call | by apply host_keeps_assign
          | apply host_keeps_step_configure
          | apply host_keeps_step_select_home ].
Qed.

Lemma host_keeps_step_user ui : keeps P (async_step_user ui).
Proof.
  unfold async_step_user, call_start_device_auth.
  keeps_flow;
    first [ apply host_keeps_self_api_call | by apply host_keeps_assign
          | apply host_keeps_step_auth ].
Qed.

Lemma host_keeps_reauth_auth_form : keeps P (async_step_reauth_auth None).
Proof. unfold async_step_reauth_auth. keeps_flow. Qed.

Lemma host_keeps_step_reauth_confirm ui :
  keeps P (async_step_reauth_confirm ui).
Proof.
  unfold async_step_reauth_confirm, call_start_device_auth.
  keeps_flow;
    first [ apply host_keeps_self_api_call | by apply host_keeps_assign
          | apply host_keeps_reauth_auth_form ].
Qed.
End HostUntouched.

Section FlowStepExtras.
Context `{AM : ApiModule} {KM : ConstModule}.
Import ConfigFlow.

Lemma reauth_auth_host (ui : option dict) (self : TadoXConfigFlow) :
  hass (state_of (async_step_reauth_auth ui self)) = hass self
  \/ result_of (async_step_reauth_auth ui self)
     = Ok (AbortFlow "reauth_successful").
Proof.
  unfold result_of, state_of, async_step_reauth_auth, call_poll_for_token,
    self_api_call, _get_reauth_entry, async_update_reload_and_abort.
  unfold_monad.
  destruct ui as [ui|]; simpl; [|by left].
  destruct (_api self) as [a|] eqn:Ha; simpl; [|by left].
  destruct (truthy (_device_code self)); simpl; [|by left].
  rewrite Ha; simpl.
  destruct (poll_for_token a (_device_code self) 3 120) as [[[|]|e] a1];
    simpl.
  - destruct (reauth_entry_id self) as [eid|]; simpl; [|by left].
    destruct (find _ _) as [e|]; simpl; [by right|by left].
  - by left.
  - destruct (isinstance e "TadoXAuthError"); simpl; by left.
Qed.

(** The flow writes to the host in one place only: whatever step is run,
    the host is as before unless the step is a reauth authentication that
    ended with "reauth_successful". *)
Theorem only_reauth_success_writes_the_host
    (st : step) (self : TadoXConfigFlow) :
  hass (state_of (run_step st self)) = hass self
  \/ ((exists ui, st = StepReauthAuth ui)
      /\ result_of (run_step st self) = Ok (AbortFlow "reauth_successful")).
Proof.
  destruct st as [ui|ui|ui|ui|d|ui|ui]; simpl.
  - left. by apply (host_keeps_step_user (hass self)).
  - left. by apply (host_keeps_step_auth (hass self)).
  - left. by apply (host_keeps_step_select_home (hass self)).
  - left. by apply (host_keeps_step_configure (hass self)).
  - left. by apply (host_keeps_step_reauth_confirm (hass self)).
  - left. by apply (host_keeps_step_reauth_confirm (hass self)).
  - destruct (reauth_auth_host ui self) as [Hh|Hr]; [by left|].
    right. split; [by exists ui|done].
Qed.

Lemma select_home_loop_first_match (v : pyval) (pre post : list dict)
    (home : dict) (self : TadoXConfigFlow) :
  Forall (fun hm => exists i, hm !! "id" = Some i /\ py_eq i v = false) pre ->
  (exists i, home !! "id" = Some i /\ py_eq i v = true) ->
  select_home_loop v (pre ++ home :: post) self =
    (Ok (Some configure_form), set_selected_home (Some home) self, []).
Proof.
  intros Hpre (i & Hi & Heq).
  induction Hpre as [|hm pre (j & Hj & Hne) _ IH]; simpl;
    unfold assign, async_step_configure, configure_form in *; unfold_monad.
  - rewrite Hi; simpl. rewrite Heq. reflexivity.
  - rewrite Hj; simpl. rewrite Hne. by rewrite IH.
Qed.

Lemma select_home_loop_no_match (v : pyval) (homes : list dict)
    (self : TadoXConfigFlow) :
  Forall (fun hm => exists i, hm !! "id" = Some i /\ py_eq i v = false)
    homes ->
  select_home_loop v homes self = (Ok None, self, []).
Proof.
  intros Hall. induction Hall as [|hm homes (j & Hj & Hne) _ IH]; simpl;
    unfold_monad; [done|].
  rewrite Hj; simpl. rewrite Hne. by rewrite IH.
Qed.

(** Selecting a home: the submitted id selects the first of the flow's
    homes whose id equals it and leads to the configure form; an id that
    no home has shows the selection form again, as if nothing had been
    submitted; a submission without the home id raises [KeyError]. *)
Theorem select_home_picks_first_match
    (self : TadoXConfigFlow) (ui : dict) :
  (forall v pre home post,
     ui !! CONF_HOME_ID = Some v ->
     _homes self = (pre ++ home :: post)%list ->
     Forall (fun hm => exists i, hm !! "id" = Some i /\ py_eq i v = false)
       pre ->
     (exists i, home !! "id" = Some i /\ py_eq i v = true) ->
     async_step_select_home (Some ui) self =
       (Ok configure_form, set_selected_home (Some home) self, []))
  /\ (forall v,
       ui !! CONF_HOME_ID = Some v ->
       Forall (fun hm => exists i, hm !! "id" = Some i /\ py_eq i v = false)
         (_homes self) ->
       async_step_select_home (Some ui) self
         = async_step_select_home None self
       /\ state_of (async_step_select_home (Some ui) self) = self)
  /\ (ui !! CONF_HOME_ID = None ->
       async_step_select_home (Some ui) self
         = (Raise (KeyError CONF_HOME_ID), self, [])).
Proof.
  split; [|split].
  - intros v pre home post Hv Hhomes Hpre Hhome.
    unfold async_step_select_home. unfold_monad. rewrite Hv; simpl.
    rewrite Hhomes.
    by rewrite (select_home_loop_first_match v pre post home self Hpre Hhome).
  - intros v Hv Hall.
    assert (Hrun : async_step_select_home (Some ui) self
                   = async_step_select_home None self).
    { unfold async_step_select_home. unfold_monad. rewrite Hv; simpl.
      by rewrite (select_home_loop_no_match v (_homes self) self Hall). }
    split; [done|]. rewrite Hrun.
    unfold state_of, async_step_select_home. unfold_monad. simpl.
    pose proof (home_options_pure (_homes self) self) as [Hs _].
    unfold state_of in Hs.
    destruct (home_options (_homes self) self) as [[[?|?] ?] ?];
      simpl in *; done.
  - intros Hv. unfold async_step_select_home. unfold_monad.
    by rewrite Hv.
Qed.

(** Submitting the configure form needs a client object and a selected
    home: without the client object the flow aborts with "unknown"
    whatever else holds; with it but without a selected home the step
    raises [TypeError]; and a selected home without an id or, when the
    home is not configured yet, without a name raises [KeyError]. *)
Theorem configure_needs_client_and_home
    (self : TadoXConfigFlow) (ui : dict) :
  (_api self = None ->
     async_step_configure (Some ui) self = (Ok (AbortFlow "unknown"), self, []))
  /\ (forall a, _api self = Some a -> _selected_home self = None ->
       async_step_configure (Some ui) self =
         (Raise (TypeError "'NoneType' object is not subscriptable"), self, []))
  /\ (forall a home, _api self = Some a -> _selected_home self = Some home ->
       home !! "id" = None ->
       async_step_configure (Some ui) self = (Raise (KeyError "id"), self, []))
  /\ (forall a home hid, _api self = Some a ->
       _selected_home self = Some home ->
       home !! "id" = Some hid -> home !! "name" = None ->
       already_configured ("tado_x_" +:+ py_str hid)
         (config_entries (hass self)) = false ->
       async_step_configure (Some ui) self
         = (Raise (KeyError "name"), self, [])).
Proof.
  unfold async_step_configure, _create_entry, subscript_home. unfold_monad.
  repeat split.
  - intros Ha. simpl. by rewrite Ha.
  - intros a Ha Hsel. simpl. by rewrite Ha, Hsel.
  - intros a home Ha Hsel Hid. simpl. rewrite Ha, Hsel; simpl.
    by rewrite Hid.
  - intros a home hid Ha Hsel Hid Hname Hdup. simpl. rewrite Ha, Hsel; simpl.
    rewrite Hid; simpl. rewrite Hdup; simpl. by rewrite Hname.
Qed.

(** The two authentication steps without a client object or with an empty
    device code: a submission makes no call and shows the form again
    without an error. *)
Theorem auth_steps_without_device_code
    (self : TadoXConfigFlow) (ui : dict) :
  _api self = None \/ truthy (_device_code self) = false ->
  async_step_auth (Some ui) self =
    (Ok (ShowForm "auth" SchemaEmpty ∅ (auth_placeholders self)), self, [])
  /\ async_step_reauth_auth (Some ui) self =
       (Ok (ShowForm "reauth_auth" SchemaEmpty ∅ (auth_placeholders self)),
        self, []).
Proof.
  intros Hguard. unfold async_step_auth, async_step_reauth_auth.
  unfold_monad. simpl.
  destruct Hguard as [Ha|Hdc]; [rewrite Ha | rewrite Hdc, andb_false_r];
    done.
Qed.

(** Errors of the auth step: a [TadoXAuthError] from the poll, or from
    [get_homes] after a poll that succeeded, is logged and shows the form
    again with "auth_error"; any other exception of the poll leaves the
    step as it is. *)
Theorem auth_step_errors
    (self : TadoXConfigFlow) (ui : dict) (a : TadoXApi) :
  _api self = Some a ->
  truthy (_device_code self) = true ->
  let auth_error a' :=
    Ok (ShowForm "auth" SchemaEmpty {[ "base" := "auth_error" ]}
          (auth_placeholders (set_api (Some a') self))) in
  (forall e a1,
     poll_for_token a (_device_code self) 3 120 = (Raise e, a1) ->
     async_step_auth (Some ui) self =
       if isinstance e "TadoXAuthError"
       then (auth_error a1, set_api (Some a1) self,
             [polled self (Some e); EvLog "error" ("Auth error: " +:+ exn_msg e)])
       else (Raise e, set_api (Some a1) self, [polled self (Some e)]))
  /\ (forall e a1 a2,
       poll_for_token a (_device_code self) 3 120 = (Ok true, a1) ->
       get_homes a1 = (Raise e, a2) ->
       isinstance e "TadoXAuthError" = true ->
       async_step_auth (Some ui) self =
         (auth_error a2, set_api (Some a2) self,
          [polled self None; EvApi "get_homes" [] (Some e);
           EvLog "error" ("Auth error: " +:+ exn_msg e)])).
Proof.
  intros Ha Hdc auth_error. subst auth_error.
  unfold async_step_auth, call_poll_for_token, call_get_homes, self_api_call,
    polled.
  unfold_monad. rewrite Ha, Hdc; simpl. rewrite Ha; simpl.
  split.
  - intros e a1 Hpoll. rewrite Hpoll; simpl.
    by destruct (isinstance e "TadoXAuthError").
  - intros e a1 a2 Hpoll Hhomes Hauth. rewrite Hpoll; simpl.
    rewrite Hhomes; simpl. by rewrite Hauth.
Qed.

(** The reauth confirmation: like the user step it starts the device
    authorisation on a new client object and keeps the codes, but the
    verification URI has no fallback (it is None when the response has
    neither key), and only a [TadoXAuthError] is turned into the form
    error "auth_error": any other exception, a network error included,
    leaves the step. *)
Theorem reauth_confirm_starts_device_auth
    (self : TadoXConfigFlow) (ui : dict) :
  let a0 := new_TadoXApi (client_session (hass self)) VNone VNone None in
  let run := async_step_reauth_confirm (Some ui) self in
  (forall auth_data a1 dc uc,
     start_device_auth a0 = (Ok auth_data, a1) ->
     auth_data !! "device_code" = Some dc ->
     auth_data !! "user_code" = Some uc ->
     let uri :=
       match auth_data !! "verification_uri_complete" with
       | Some v => v
       | None => default VNone (auth_data !! "verification_uri")
       end in
     _device_code (state_of run) = dc
     /\ _user_code (state_of run) = uc
     /\ _verification_uri (state_of run) = uri
     /\ result_of run =
          Ok (ShowForm "reauth_auth" SchemaEmpty ∅
                {[ "user_code" := py_or uc (VStr "");
                   "verification_uri" := py_or uri (VStr "") ]}))
  /\ (forall e a1,
       start_device_auth a0 = (Raise e, a1) ->
       run =
         if isinstance e "TadoXAuthError"
         then (Ok (ShowForm "reauth_confirm" SchemaEmpty
                     {[ "base" := "auth_error" ]} ∅),
               set_api (Some a1) self,
               [EvApi "start_device_auth" [] (Some e);
                EvLog "error"
                  ("Failed to start device auth: " +:+ exn_msg e)])
         else (Raise e, set_api (Some a1) self,
               [EvApi "start_device_auth" [] (Some e)])).
Proof.
  intros a0 run. subst run.
  unfold result_of, state_of, async_step_reauth_confirm,
    call_start_device_auth, self_api_call, assign, async_step_reauth_auth.
  unfold_monad. simpl. fold a0. split.
  - intros auth_data a1 dc uc Hstart Hdc Huc. rewrite Hstart; simpl.
    rewrite Hdc; simpl. rewrite Huc; simpl. repeat split; reflexivity.
  - intros e a1 Hstart. rewrite Hstart; simpl.
    by destruct (isinstance e "TadoXAuthError").
Qed.
End FlowStepExtras.

(** ** [__init__.py]: unloading and reloading *)
Section UnloadExtras.
Context `{CM : CoordinatorModule} {KM : ConstModule} {HM : HostModule}
  {UM : UnloadModule}.
Import Init InitUnload.

Lemma unload_entry_pops
    (entry : ConfigEntry) (h : HomeAssistant) (dd : gmap string hass_val)
    (v : hass_val) :
  async_unload_platforms h entry PLATFORMS = Ok true ->
  hass_data h !! DOMAIN = Some dd ->
  dd !! entry_id entry = Some v ->
  async_unload_entry entry h =
    (Ok true, set_hass_data (insert DOMAIN (delete (entry_id entry) dd)) h,
     []).
Proof.
  intros Hu Hdd Hv.
  unfold async_unload_entry, domain_pop. unfold_monad.
  rewrite Hu; simpl. by rewrite Hdd, Hv.
Qed.

(** Unloading an entry: the coordinator stored under the entry's id is
    removed exactly when the host unloaded the platforms, and the answer
    of the host is what is returned; platforms that did not unload, or an
    exception of the host, leave [hass.data] as it was; with the platforms
    unloaded but no coordinator stored the [pop] raises [KeyError]. *)
Theorem unload_removes_coordinator_when_platforms_unloaded
    (entry : ConfigEntry) (h : HomeAssistant) :
  let run := async_unload_entry entry h in
  (async_unload_platforms h entry PLATFORMS = Ok false ->
     run = (Ok false, h, []))
  /\ (forall e, async_unload_platforms h entry PLATFORMS = Raise e ->
       run = (Raise e, h, []))
  /\ (forall dd v,
       async_unload_platforms h entry PLATFORMS = Ok true ->
       hass_data h !! DOMAIN = Some dd ->
       dd !! entry_id entry = Some v ->
       run = (Ok true,
              set_hass_data (insert DOMAIN (delete (entry_id entry) dd)) h,
              [])
       /\ (forall dd', hass_data (state_of run) !! DOMAIN = Some dd' ->
            dd' !! entry_id entry = None
            /\ forall k, k <> entry_id entry -> dd' !! k = dd !! k))
  /\ (async_unload_platforms h entry PLATFORMS = Ok true ->
      (hass_data h !! DOMAIN = None
       \/ exists dd, hass_data h !! DOMAIN = Some dd
                /\ dd !! entry_id entry = None) ->
      exists k, run = (Raise (KeyError k), h, [])).
Proof.
  intros run. subst run.
  unfold async_unload_entry, domain_pop, state_of. unfold_monad.
  split; [|split; [|split]].
  - intros Hu. by rewrite Hu.
  - intros e Hu. by rewrite Hu.
  - intros dd v Hu Hdd Hv. rewrite Hu; simpl. rewrite Hdd, Hv; simpl.
    split; [done|]. intros dd'. rewrite lookup_insert_eq. intros [= <-].
    split; [apply lookup_delete_eq|].
    intros k Hk. by apply lookup_delete_ne.
  - intros Hu [Hdd|(dd & Hdd & Hv)]; rewrite Hu; simpl; rewrite Hdd; simpl.
    + by eexists.
    + rewrite Hv. by eexists.
Qed.

(** A round trip: unloading an entry that was just set up takes away the
    coordinator the setup stored, so that [hass.data] is again what it was
    before the setup. *)
Theorem setup_then_unload_restores_hass_data
    (entry : ConfigEntry) (h : HomeAssistant) (dd : gmap string hass_val) :
  result_of (async_setup_entry entry h) = Ok true ->
  hass_data h !! DOMAIN = Some dd ->
  dd !! entry_id entry = None ->
  let h1 := state_of (async_setup_entry entry h) in
  async_unload_platforms h1 entry PLATFORMS = Ok true ->
  result_of (async_unload_entry entry h1) = Ok true
  /\ hass_data (state_of (async_unload_entry entry h1)) = hass_data h.
Proof.
  intros Hok Hdd Hfree h1 Hu. subst h1.
  pose proof (async_setup_entry_run entry h) as Hrun.
  rewrite Hok in Hrun.
  remember (state_of (async_setup_entry entry h)) as h1 eqn:Hh1.
  remember (trace_of (async_setup_entry entry h)) as tr eqn:Htr.
  clear Hh1 Htr Hok.
  inversion Hrun as [| |hid a1 r h' rest Hid Href Htail]; subst.
  inversion Htail as [| | |msg name dd0 c x Hdd0 Hx]; subst;
    try match goal with
        | Hr : Raise _ = Ok _ |- _ => discriminate Hr
        | Hr : Ok _ = Raise _ |- _ => discriminate Hr
        end.
  change (hass_data h !! DOMAIN = Some dd0) in Hdd0.
  rewrite Hdd in Hdd0. injection Hdd0 as <-.
  rewrite (unload_entry_pops entry _
             (<[entry_id entry := HCoordinator c]> dd) (HCoordinator c) Hu);
    [|simpl; apply lookup_insert_eq|apply lookup_insert_eq]. split; [done|]. unfold state_of. simpl.
  rewrite insert_insert_eq, delete_insert_eq, delete_id by done.
  by apply insert_id.
Qed.

(** Reloading an entry: the answer of the unloading is not looked at, the
    entry is set up again on the host the unloading left, also when the
    platforms did not unload; only an exception of the unloading keeps the
    setup from running. *)
Theorem reload_sets_up_whatever_unload_answers
    (entry : ConfigEntry) (h : HomeAssistant) :
  let unload := async_unload_entry entry h in
  trace_of unload = []
  /\ (forall b, result_of unload = Ok b ->
       let setup := async_setup_entry entry (state_of unload) in
       async_reload_entry entry h =
         (match result_of setup with
          | Ok _ => Ok tt
          | Raise e => Raise e
          end, state_of setup, trace_of setup))
  /\ (forall e, result_of unload = Raise e ->
       async_reload_entry entry h = (Raise e, state_of unload, []))
  /\ (async_unload_platforms h entry PLATFORMS = Ok false ->
      state_of unload = h).
Proof.
  intros unload. subst unload.
  assert (Htr : trace_of (async_unload_entry entry h) = []).
  { unfold trace_of, async_unload_entry, domain_pop. unfold_monad.
    destruct (async_unload_platforms h entry PLATFORMS) as [[|]|e]; simpl;
      try done.
    destruct (hass_data h !! DOMAIN) as [dd|]; simpl; [|done].
    by destruct (dd !! entry_id entry). }
  split; [done|].
  assert (Hfalse : async_unload_platforms h entry PLATFORMS = Ok false ->
                   state_of (async_unload_entry entry h) = h).
  { intros Hu. unfold state_of, async_unload_entry. unfold_monad.
    by rewrite Hu. }
  unfold async_reload_entry, result_of, state_of, trace_of in *.
  unfold bind, ret.
  destruct (async_unload_entry entry h) as [[[b|e] h1] tr]; simpl in *;
    subst tr.
  - split; [|split; [done|done]].
    intros b' _.
    destruct (async_setup_entry entry h1) as [[[b2|e2] h2] tr2]; simpl;
      rewrite ?app_nil_r; reflexivity.
  - split; [done|]. split; [by intros e' [= ->]|done].
Qed.

(** [async_setup] is what lets an entry be set up: on a host without the
    data of the domain a setup whose refresh succeeded stores the tokens
    and then raises [KeyError] without having built a coordinator; on the
    host [async_setup] leaves, the same setup gets as far as building the
    coordinator. *)
Theorem setup_entry_needs_async_setup
    (config : gmap string dict) (entry : ConfigEntry) (h : HomeAssistant)
    (hid : pyval) (a1 : TadoXApi) :
  hass_data h !! DOMAIN = None ->
  data entry !! CONF_HOME_ID = Some hid ->
  refresh_access_token (entry_api (client_session h) entry) = (Ok tt, a1) ->
  async_setup_entry entry h =
    (Raise (KeyError DOMAIN),
     store_update (entry_id entry) (refreshed_data (data entry) a1) h,
     [EvApi "refresh_access_token" [] None;
      EvUpdateEntry (entry_id entry) (refreshed_data (data entry) a1)])
  /\ EvCreateCoordinator hid
       ∈ trace_of (async_setup_entry entry (state_of (async_setup config h))).
Proof.
  intros Hdd Hid Href. split.
  - unfold async_setup_entry, api_call, async_update_entry. unfold_monad.
    simpl. rewrite Hid; simpl. rewrite Href; simpl. by rewrite Hdd.
  - set (h0 := state_of (async_setup config h)).
    assert (Hh0 : client_session h0 = client_session h
                  /\ exists dd0, hass_data h0 !! DOMAIN = Some dd0
                       /\ forall c, dd0 !! "yaml_config"
                                     <> Some (HCoordinator c)).
    { subst h0. unfold state_of, async_setup, domain_store,
        setdefault_domain. unfold_monad. rewrite Hdd; simpl.
      destruct (config !! DOMAIN) as [cfg|]; simpl;
        rewrite ?lookup_insert_eq; simpl.
      - split; [done|]. eexists.
        split; [first [apply lookup_insert_eq | reflexivity]|].
        intros c. by rewrite lookup_insert_eq.
      - split; [done|]. eexists.
        split; [first [apply lookup_insert_eq | reflexivity]|].
        intros c. by rewrite lookup_empty. }
    destruct Hh0 as (Hsess & dd0 & Hdd0 & Hyaml).
    pose proof (async_setup_entry_run entry h0) as Hrun.
    inversion Hrun
      as [Hid' | ? e a1' _ Href' | hid0 a1' r h' rest Hid' Href' Htail Hr Hh Htr];
      [congruence | rewrite Hsess in Href'; congruence |].
    assert (hid0 = hid) as -> by congruence.
    apply elem_of_cons; right. apply elem_of_cons; right.
    inversion Htail
      as [Hno | dd c Hd Hy | msg name e | msg name dd c x Hd]; subst rest.
    + change (hass_data h0 !! DOMAIN = None) in Hno. congruence.
    + change (hass_data h0 !! DOMAIN = Some dd) in Hd.
      rewrite Hdd0 in Hd. injection Hd as <-. by destruct (Hyaml c).
    + apply (list_elem_of_lookup_2 _ 2%nat). reflexivity.
    + apply (list_elem_of_lookup_2 _ 2%nat). reflexivity.
Qed.
End UnloadExtras.

(** ** [number.py]: the platform and its entities *)
Lemma string_app_inv_head (a s1 s2 : string) :
  a +:+ s1 = a +:+ s2 -> s1 = s2.
Proof. induction a as [|c a IH]; simpl; [done|]. intros [=]. auto. Qed.

Lemma string_app_length (s1 s2 : string) :
  String.length (s1 +:+ s2) = (String.length s1 + String.length s2)%nat.
Proof. induction s1 as [|c s1 IH]; simpl; [done|]. by rewrite IH. Qed.

Lemma string_app_inv_tail (s1 s2 b : string) :
  s1 +:+ b = s2 +:+ b -> s1 = s2.
Proof.
  revert s2. induction s1 as [|c s1 IH]; intros [|c2 s2] Heq; simpl in *.
  - done.
  - apply (f_equal String.length) in Heq.
    rewrite ?string_app_length in Heq. simpl in Heq.
    rewrite ?string_app_length in Heq. lia.
  - apply (f_equal String.length) in Heq.
    rewrite ?string_app_length in Heq. simpl in Heq.
    rewrite ?string_app_length in Heq. lia.
  - injection Heq as -> Heq. f_equal. by apply IH.
Qed.

Section NumberExtras.
Context `{CM : CoordinatorModule} {KM : ConstModule}.
Import Number.

Lemma offset_unique_id_inj (c : TadoXDataUpdateCoordinator) (s1 s2 : string) :
  _attr_unique_id (new_TadoXTemperatureOffset c s1)
    = _attr_unique_id (new_TadoXTemperatureOffset c s2) ->
  s1 = s2.
Proof.
  simpl. intros Heq. apply string_app_inv_head in Heq.
  apply (string_app_inv_head "_") in Heq.
  by apply string_app_inv_tail in Heq.
Qed.

Lemma offset_entities_views (c : TadoXDataUpdateCoordinator)
    (devs : list TadoXDevice) :
  let entities := map (fun dev => new_TadoXTemperatureOffset c
                                    (serial_number dev)) devs in
  _attr_unique_id <$> entities
    = (fun s => _attr_unique_id (new_TadoXTemperatureOffset c s))
        <$> (serial_number <$> devs)
  /\ _device_serial <$> entities = serial_number <$> devs.
Proof.
  induction devs as [|dev devs [IH1 IH2]]; [done|].
  split; cbn [map fmap list_fmap]; f_equal; assumption.
Qed.

(** The unique ids of the offset entities of one home tell the devices
    apart: two serials give the same id only if they are the same serial,
    so that the entities the platform adds have pairwise different unique
    ids whenever the devices that support an offset have pairwise
    different serial numbers. *)
Theorem offset_entities_have_distinct_unique_ids
    (entry : ConfigEntry) (h : HomeAssistant)
    (dd : gmap string hass_val) (c : TadoXDataUpdateCoordinator)
    (d : TadoXData) :
  hass_data h !! DOMAIN = Some dd ->
  dd !! entry_id entry = Some (HCoordinator c) ->
  coordinator_data c = Some d ->
  NoDup (serial_number <$> List.filter supports_offset (devices d).*2) ->
  (forall s1 s2,
     _attr_unique_id (new_TadoXTemperatureOffset c s1)
       = _attr_unique_id (new_TadoXTemperatureOffset c s2) -> s1 = s2)
  /\ exists entities tr,
       async_setup_entry entry h = (Ok entities, h, tr)
       /\ NoDup (_attr_unique_id <$> entities)
       /\ _device_serial <$> entities
          = serial_number <$> List.filter supports_offset (devices d).*2.
Proof.
  intros Hdom Hc Hd Hnd. split; [apply offset_unique_id_inj|].
  destruct (offset_entities_loop_run (S := HomeAssistant) c
              (devices d).*2 [] h) as (tr & Hrun & _).
  simpl in Hrun. eexists _, _. split; [|split].
  - unfold async_setup_entry, bind, get, ret, log, emit, raise.
    rewrite Hdom, Hc. unfold coordinator_devices. rewrite Hd.
    rewrite Hrun. simpl. reflexivity.
  - destruct (offset_entities_views c
                (List.filter supports_offset (devices d).*2)) as [-> _].
    apply NoDup_fmap_2; [|done].
    intros s1 s2. apply offset_unique_id_inj.
  - by destruct (offset_entities_views c
                   (List.filter supports_offset (devices d).*2)) as [_ ->].
Qed.

(** Setting the offset when something goes wrong after or outside the
    [except Exception] clause: a refresh that raises after the offset was
    set is logged as a failure to set the offset and raised again; and
    what is raised without being an [Exception] (a cancellation) passes
    unlogged. *)
Theorem set_offset_refresh_failure_and_cancellation
    (self : TadoXTemperatureOffset) (value : float)
    (c : TadoXDataUpdateCoordinator) :
  let call := EvApi "set_device_temperature_offset"
                [VStr (_device_serial self); VFloat value] in
  let failed e := EvLog "error"
                    ("Failed to set temperature offset for device "
                     +:+ _device_serial self +:+ ": " +:+ exn_msg e) in
  (forall a1 c2,
     set_device_temperature_offset (api c) (_device_serial self) value
       = (Ok tt, a1) ->
     async_request_refresh (set_coordinator_api a1 c) = (Ok tt, c2) ->
     async_set_native_value self value c =
       (Ok tt, c2, [call None; EvRequestRefresh None]))
  /\ (forall a1 e c2,
       set_device_temperature_offset (api c) (_device_serial self) value
         = (Ok tt, a1) ->
       async_request_refresh (set_coordinator_api a1 c) = (Raise e, c2) ->
       async_set_native_value self value c =
         (Raise e, c2,
          [call None; EvRequestRefresh (Some e)]
          ++ if isinstance e "Exception" then [failed e] else [])%list)
  /\ (forall e a1,
       set_device_temperature_offset (api c) (_device_serial self) value
         = (Raise e, a1) ->
       isinstance e "Exception" = false ->
       async_set_native_value self value c =
         (Raise e, set_coordinator_api a1 c, [call (Some e)])).
Proof.
  intros call failed. subst call failed.
  unfold async_set_native_value. unfold_monad.
  split; [|split].
  - intros a1 c2 Hset Href. rewrite Hset; simpl. by rewrite Href.
  - intros a1 e c2 Hset Href. rewrite Hset; simpl. rewrite Href; simpl.
    by destruct (isinstance e "Exception").
  - intros e a1 Hset Hexc. rewrite Hset; simpl. by rewrite Hexc.
Qed.

(** The number platform and its entities without their coordinator: the
    platform setup raises [KeyError] when [hass.data] has no data of the
    domain or no coordinator under the entry's id, and like the entity's
    properties [AttributeError] when the coordinator has no data yet; it
    adds no entity then and leaves the host as it is. *)
Theorem offset_platform_without_coordinator
    (entry : ConfigEntry) (h : HomeAssistant) :
  (hass_data h !! DOMAIN = None ->
     async_setup_entry entry h = (Raise (KeyError DOMAIN), h, []))
  /\ (forall dd, hass_data h !! DOMAIN = Some dd ->
       dd !! entry_id entry = None ->
       async_setup_entry entry h = (Raise (KeyError (entry_id entry)), h, []))
  /\ (forall dd c self, hass_data h !! DOMAIN = Some dd ->
       dd !! entry_id entry = Some (HCoordinator c) ->
       coordinator_data c = None ->
       let err := AttributeError
                    "'NoneType' object has no attribute 'devices'" in
       async_setup_entry entry h = (Raise err, h, [])
       /\ available self c = Raise err
       /\ native_value self c = Raise err).
Proof.
  unfold async_setup_entry, available, native_value, _device,
    coordinator_devices. unfold_monad.
  split; [|split].
  - intros Hdd. by rewrite Hdd.
  - intros dd Hdd Hc. by rewrite Hdd, Hc.
  - intros dd c self Hdd Hc Hdata. rewrite Hdd, Hc, Hdata. done.
Qed.
End NumberExtras.

(** * The properties at work in a concrete world *)

#[local] Existing Instances Fixture.runtime Fixture.consts Fixture.vendor
  Fixture.coordinators Fixture.host.

Lemma run_eta `{PyRuntime} {S A} (x : outcome A * S * list event) :
  x = (result_of x, state_of x, trace_of x).
Proof. by destruct x as [[? ?] ?]. Qed.

Lemma poll_timeout_reshows_form_witness :
  ConfigFlow.async_step_auth (Some ∅) (Fixture.flow_on Fixture.PollTimesOut None)
  = (Ok (ConfigFlow.ShowForm "auth" ConfigFlow.SchemaEmpty
           {[ "base" := "auth_timeout" ]}
           (ConfigFlow.auth_placeholders
              (Fixture.flow_on Fixture.PollTimesOut None))),
     Fixture.flow_on Fixture.PollTimesOut None,
     [EvApi "poll_for_token" [VStr "dc-1"; VInt 3; VInt 120] None]).
Proof.
  destruct (poll_timeout_reshows_form
              (Fixture.flow_on Fixture.PollTimesOut None) ∅ _ _
              eq_refl eq_refl eq_refl) as (_ & Hauth & _).
  exact Hauth.
Defined.

Lemma setup_refreshes_before_coordinator_witness :
  let run := Init.async_setup_entry Fixture.stored_entry
               (Fixture.hass_on Fixture.Unauthorized) in
  result_of run =
    Raise (ConfigEntryAuthFailed "Authentication failed: invalid_grant"
             (Fixture.TadoXAuthError "invalid_grant"))
  /\ hass_data (state_of run) = hass_data (Fixture.hass_on Fixture.Unauthorized).
Proof.
  intros run.
  destruct (setup_refreshes_before_coordinator Fixture.stored_entry
              (Fixture.hass_on Fixture.Unauthorized)
              (result_of run) (state_of run) (trace_of run) (run_eta run))
    as (_ & _ & Hraised).
  destruct (Hraised (Fixture.TadoXAuthError "invalid_grant"))
    as (Hr & Hd & _).
  - apply (list_elem_of_lookup_2 _ 0%nat). by vm_compute.
  - reflexivity.
  - split; assumption.
Defined.

Lemma setup_true_only_after_first_refresh_witness :
  (let run := Init.async_setup_entry Fixture.stored_entry
                (Fixture.hass_on (Fixture.Online 1)) in
   exists pre,
     trace_of run =
       (pre ++ [EvFirstRefresh None;
                EvForwardEntrySetups "e1" ["climate"; "sensor"; "number"]
                  None])%list)
  /\ (let run := Init.async_setup_entry Fixture.stored_entry
                   (Fixture.hass_on Fixture.DataFails) in
      result_of run =
        Raise (ConfigEntryNotReady "Failed to fetch data: HTTP 500"
                 (Fixture.TadoXApiError "HTTP 500"))).
Proof.
  split; intros run.
  - destruct (setup_true_only_after_first_refresh Fixture.stored_entry
                (Fixture.hass_on (Fixture.Online 1))
                (result_of run) (state_of run) (trace_of run) (run_eta run))
      as (Hok & _).
    destruct (Hok true) as (_ & Hpre & _); [by vm_compute|exact Hpre].
  - destruct (setup_true_only_after_first_refresh Fixture.stored_entry
                (Fixture.hass_on Fixture.DataFails)
                (result_of run) (state_of run) (trace_of run) (run_eta run))
      as (_ & Hraised).
    destruct (Hraised (Fixture.TadoXApiError "HTTP 500")) as (Hr & _).
    + apply (list_elem_of_lookup_2 _ 5%nat). by vm_compute.
    + reflexivity.
    + exact Hr.
Defined.

Lemma auth_step_branches_on_home_count_witness :
  (let run := ConfigFlow.async_step_auth (Some ∅)
                (Fixture.flow_on (Fixture.Online 1) None) in
   result_of run =
     Ok (ConfigFlow.ShowForm "configure" ConfigFlow.SchemaConfigure ∅
           {[ "default_interval" := VStr "1800" ]})
   /\ ConfigFlow._selected_home (state_of run) = Some (Fixture.home 7 "Flat"))
  /\ (let run := ConfigFlow.async_step_auth (Some ∅)
                   (Fixture.flow_on (Fixture.Online 2) None) in
      result_of run =
        Ok (ConfigFlow.ShowForm "select_home"
              (ConfigFlow.SchemaSelectHome
                 [(VInt 7, VStr "Flat"); (VInt 8, VStr "Cabin")]) ∅ ∅))
  /\ (let run := ConfigFlow.async_step_auth (Some ∅)
                   (Fixture.flow_on (Fixture.Online 0) None) in
      exists placeholders,
        result_of run =
          Ok (ConfigFlow.ShowForm "auth" ConfigFlow.SchemaEmpty
                {[ "base" := "no_homes" ]} placeholders)).
Proof.
  split; [|split]; intros run.
  - destruct (auth_step_branches_on_home_count
                (Fixture.flow_on (Fixture.Online 1) None) ∅ _ _ _ _
                eq_refl eq_refl eq_refl eq_refl) as (_ & Hr & Hs).
    split; [exact Hr|]. fold run in Hs. by rewrite Hs.
  - destruct (auth_step_branches_on_home_count
                (Fixture.flow_on (Fixture.Online 2) None) ∅ _ _ _ _
                eq_refl eq_refl eq_refl eq_refl) as (_ & _ & _ & Hopts).
    apply Hopts. by vm_compute.
  - destruct (auth_step_branches_on_home_count
                (Fixture.flow_on (Fixture.Online 0) None) ∅ _ _ _ _
                eq_refl eq_refl eq_refl eq_refl) as (_ & Hr & _).
    eexists. exact Hr.
Defined.

Lemma fixture_conf_keys_NoDup : NoDup conf_keys.
Proof. apply (bool_decide_unpack _). by vm_compute. Qed.

Lemma token_refresh_keeps_other_fields_witness :
  (let run := Init.async_setup_entry Fixture.stored_entry
                (Fixture.hass_on (Fixture.Online 1)) in
   let d := refreshed_data Fixture.stored_data
              (Fixture.fresh_tokens
                 (Init.entry_api (Fixture.Online 1) Fixture.stored_entry)) in
   (data <$> config_entries (state_of run)) !! 0%nat = Some d
   /\ d !! "access_token" = Some (VStr "at-2")
   /\ d !! "refresh_token" = Some (VStr "rt-2")
   /\ d !! "token_expiry" = Some (VStr "2026-01-01T00:10:00")
   /\ d !! "home_id" = Some (VInt 7))
  /\ (let run := ConfigFlow.async_step_reauth_auth (Some ∅)
                   (Fixture.flow_on (Fixture.Online 1) (Some "e1")) in
      result_of run = Ok (ConfigFlow.AbortFlow "reauth_successful")
      /\ exists d,
           (data <$> config_entries (ConfigFlow.hass (state_of run))) !! 0%nat
             = Some d
           /\ d !! "access_token" = Some (VStr "at-2")
           /\ d !! "refresh_token" = Some (VStr "rt-2")
           /\ d !! "token_expiry" = Some (VStr "2026-01-01T00:10:00")
           /\ d !! "scan_interval" = Some (VInt 60)).
Proof.
  destruct (token_refresh_keeps_other_fields fixture_conf_keys_NoDup)
    as [Hsetup Hreauth].
  split.
  - intros run d.
    pose proof (Hsetup Fixture.stored_entry
                  (Fixture.hass_on (Fixture.Online 1))
                  (VInt 7) _ eq_refl eq_refl)
      as (Hstore & _ & (Hat & Hrt & Hte & _) & Hkeep).
    split; [|split; [exact Hat|split; [exact Hrt|split; [exact Hte|]]]].
    + fold run in Hstore. rewrite Hstore. reflexivity.
    + transitivity (data Fixture.stored_entry !! "home_id");
        [|reflexivity].
      apply (Hkeep "home_id").
      apply (list_elem_of_lookup_2 _ 0%nat). reflexivity.
  - intros run.
    pose proof (Hreauth (Fixture.flow_on (Fixture.Online 1) (Some "e1")) ∅
                  _ _ "e1" Fixture.stored_entry
                  eq_refl eq_refl eq_refl eq_refl eq_refl)
      as (Hr & Hstore & _ & (Hat & Hrt & Hte & _) & Hkeep).
    split; [exact Hr|].
    eexists. split; [|split; [exact Hat|split; [exact Hrt|split; [exact Hte|]]]].
    + fold run in Hstore. rewrite Hstore. reflexivity.
    + transitivity (data Fixture.stored_entry !! "scan_interval");
        [|reflexivity].
      apply (Hkeep "scan_interval").
      apply (list_elem_of_lookup_2 _ 2%nat). reflexivity.
Defined.

Lemma user_step_starts_device_auth_witness :
  (let run := ConfigFlow.async_step_user (Some ∅)
                (ConfigFlow.__init__ (Fixture.hass_on (Fixture.Online 1)) None) in
   ConfigFlow._device_code (state_of run) = VStr "dc-1"
   /\ ConfigFlow._user_code (state_of run) = VStr "7BQ5ZQ"
   /\ ConfigFlow._verification_uri (state_of run)
        = VStr "https://login.tado.com/device")
  /\ result_of (ConfigFlow.async_step_user (Some ∅)
                  (ConfigFlow.__init__ (Fixture.hass_on Fixture.Unauthorized)
                     None))
       = Ok (user_form {[ "base" := "auth_error" ]})
  /\ result_of (ConfigFlow.async_step_user (Some ∅)
                  (ConfigFlow.__init__ (Fixture.hass_on Fixture.Unreachable)
                     None))
       = Ok (user_form {[ "base" := "cannot_connect" ]}).
Proof.
  split; [|split].
  - intros run.
    destruct (user_step_starts_device_auth
                (ConfigFlow.__init__ (Fixture.hass_on (Fixture.Online 1)) None)
                ∅) as (Hok & _).
    destruct (Hok _ _ (VStr "dc-1") (VStr "7BQ5ZQ") eq_refl)
      as (Hdc & Huc & Huri & _); [by vm_compute..|].
    fold run in Hdc, Huc, Huri. rewrite Hdc, Huc, Huri.
    split; [done|]. split; [done|]. by vm_compute.
  - destruct (user_step_starts_device_auth
                (ConfigFlow.__init__ (Fixture.hass_on Fixture.Unauthorized)
                   None) ∅) as (_ & Hauth & _).
    by destruct (Hauth _ _ eq_refl eq_refl) as (Hr & _).
  - destruct (user_step_starts_device_auth
                (ConfigFlow.__init__ (Fixture.hass_on Fixture.Unreachable)
                   None) ∅) as (_ & _ & Hclient).
    by destruct (Hclient _ _ eq_refl eq_refl eq_refl) as (Hr & _).
Defined.

Lemma set_offset_calls_api_then_refresh_witness :
  (let self := Number.new_TadoXTemperatureOffset
                 (Fixture.coordinator_on (Fixture.Online 1)) "VA1" in
   let run := Number.async_set_native_value self (2 : @float Fixture.runtime)
                (Fixture.coordinator_on (Fixture.Online 1)) in
   exists x rest,
     trace_of run =
       EvApi "set_device_temperature_offset" [VStr "VA1"; VFloat 2] None
       :: EvRequestRefresh x :: rest)
  /\ (let self := Number.new_TadoXTemperatureOffset
                    (Fixture.coordinator_on Fixture.Unauthorized) "VA1" in
      let run := Number.async_set_native_value self (2 : @float Fixture.runtime)
                   (Fixture.coordinator_on Fixture.Unauthorized) in
      result_of run = Raise (Fixture.TadoXAuthError "invalid_grant")
      /\ (forall x, EvRequestRefresh x ∉ trace_of run)
      /\ trace_of run =
           [EvApi "set_device_temperature_offset" [VStr "VA1"; VFloat 2]
              (Some (Fixture.TadoXAuthError "invalid_grant"));
            EvLog "error"
              "Failed to set temperature offset for device VA1: invalid_grant"])
  /\ (let c := Fixture.cancelled_coordinator in
      let self := Number.new_TadoXTemperatureOffset
                    (H0 := Fixture.cancelled_vendor) c "VA1" in
      let run := Number.async_set_native_value
                   (CM := Fixture.cancelled_coordinators)
                   self (2 : @float Fixture.runtime) c in
      result_of run = Raise Fixture.CancelledError
      /\ trace_of run =
           [EvApi "set_device_temperature_offset" [VStr "VA1"; VFloat 2]
              (Some Fixture.CancelledError)]).
Proof.
  split; [|split]; intros.
  - destruct (set_offset_calls_api_then_refresh self (2 : @float Fixture.runtime)
                (Fixture.coordinator_on (Fixture.Online 1))) as (Hok & _).
    destruct (Hok eq_refl) as (x & rest & Htr & _). by exists x, rest.
  - destruct (set_offset_calls_api_then_refresh self (2 : @float Fixture.runtime)
                (Fixture.coordinator_on Fixture.Unauthorized)) as (_ & Hraise).
    destruct (Hraise (Fixture.TadoXAuthError "invalid_grant") eq_refl)
      as (Hr & Hno & Hlog & _).
    split; [assumption|]. split; [assumption|]. exact (Hlog eq_refl).
  - destruct (set_offset_calls_api_then_refresh
                (CM := Fixture.cancelled_coordinators)
                self (2 : @float Fixture.runtime) c) as (_ & Hraise).
    destruct (Hraise Fixture.CancelledError eq_refl) as (Hr & _ & _ & Hbare).
    split; [assumption|]. exact (Hbare eq_refl).
Defined.

(** C7, as the claim words it, fails: a call that is cancelled raises what
    is not an instance of [Exception]; it leaves the method as the claim
    says and no refresh is asked for, but nothing is logged. *)
Lemma set_offset_cancelled_call_is_not_logged :
  let c := Fixture.cancelled_coordinator in
  let self := Number.new_TadoXTemperatureOffset
                (H0 := Fixture.cancelled_vendor) c "VA1" in
  let run := Number.async_set_native_value
               (CM := Fixture.cancelled_coordinators)
               self (2 : @float Fixture.runtime) c in
  (set_device_temperature_offset (api c) (Number._device_serial self)
     (2 : @float Fixture.runtime)).1 = Raise Fixture.CancelledError
  /\ result_of run = Raise Fixture.CancelledError
  /\ ~ (exists ev, ev ∈ trace_of run /\ is_log ev).
Proof.
  intros c self run. split; [reflexivity|]. split; [reflexivity|].
  intros (ev & Hin & Hlog).
  assert (Htr : trace_of run =
                  [EvApi "set_device_temperature_offset"
                     [VStr "VA1"; VFloat 2] (Some Fixture.CancelledError)])
    by reflexivity.
  rewrite Htr in Hin. apply elem_of_cons in Hin as [->|Hin].
  - exact Hlog.
  - by apply elem_of_nil in Hin.
Qed.

Lemma create_entry_duplicate_check_witness :
  (exists d,
     ConfigFlow._create_entry (Some (Fixture.home 7 "Flat"))
       (VInt 60) (VBool false) (@VFloat Fixture.runtime 5) (@VFloat Fixture.runtime 25)
       (Fixture.flow_on (Fixture.Online 1) None)
     = (Ok (ConfigFlow.CreateEntry (VStr "Flat") d),
        Fixture.flow_on (Fixture.Online 1) None, [])
     /\ d !! "max_temp" = Some (@VFloat Fixture.runtime 25))
  /\ data Fixture.stored_entry !! "home_id" = Some (VInt 7).
Proof.
  split; [|reflexivity].
  destruct (create_entry_duplicate_check
              (Fixture.flow_on (Fixture.Online 1) None)
              (Fixture.home 7 "Flat") _ (VInt 7)
              (VInt 60) (VBool false) (@VFloat Fixture.runtime 5) (@VFloat Fixture.runtime 25)
              eq_refl eq_refl) as (_ & _ & _ & Hcreate).
  apply Hcreate; [|reflexivity].
  repeat constructor.
Defined.

Lemma offset_entities_for_va04_su04_only_witness :
  exists tr,
    Number.async_setup_entry Fixture.stored_entry
      (Fixture.hass_set_up (Fixture.Online 1)) =
    (Ok [ {| Number._device_serial := "VA1";
             Number._attr_unique_id := "7_VA1_temperature_offset" |};
          {| Number._device_serial := "SU1";
             Number._attr_unique_id := "7_SU1_temperature_offset" |} ],
     Fixture.hass_set_up (Fixture.Online 1), tr).
Proof.
  pose proof (offset_entities_for_va04_su04_only Fixture.stored_entry
                (Fixture.hass_set_up (Fixture.Online 1))
                (Fixture.domain_data (Fixture.Online 1))
                (Fixture.coordinator_on (Fixture.Online 1))
                Fixture.home_data eq_refl eq_refl eq_refl)
    as (entities & tr & Hrun & _ & -> & _).
  exists tr. rewrite Hrun. reflexivity.
Defined.


(** ** The further properties at work *)

#[local] Existing Instance Fixture.unloader.

Lemma async_setup_prepares_domain_witness :
  let run := Init.async_setup
               {[ "tado_x" := {[ "scan_interval" := VInt 120 ]} ]}
               (Fixture.hass_fresh (Fixture.Online 1)) in
  result_of run = Ok true
  /\ exists dd, hass_data (state_of run) !! "tado_x" = Some dd
           /\ dd !! "yaml_config"
              = Some (HYaml {[ "scan_interval" := VInt 120 ]}).
Proof.
  intros run.
  pose proof (async_setup_prepares_domain
                {[ "tado_x" := {[ "scan_interval" := VInt 120 ]} ]}
                (Fixture.hass_fresh (Fixture.Online 1))) as Hsetup.
  cbv zeta in Hsetup.
  destruct Hsetup as (Hr & _ & _ & (dd & Hdd & Hyaml & _) & _).
  split; [exact Hr|]. exists dd. split; [exact Hdd|exact Hyaml].
Defined.

Lemma setup_builds_coordinator_from_entry_witness :
  exists c rest,
    trace_of (Init.async_setup_entry Fixture.stored_entry
                (Fixture.hass_with_yaml (Fixture.Online 1))) =
      ([EvApi "refresh_access_token" [] None;
        EvUpdateEntry "e1"
          (refreshed_data Fixture.stored_data
             (Fixture.fresh_tokens
                (Init.entry_api (Fixture.Online 1) Fixture.stored_entry)));
        EvLog "info" "Using scan interval: 120 seconds";
        EvDeviceRegistry "e1" ("tado_x", "7") (VStr "Flat")
          "Tado" "Tado X Home";
        EvCreateCoordinator (VInt 7);
        EvFirstRefresh (raised_of (async_config_entry_first_refresh c).1)]
       ++ rest)%list
    /\ scan_interval c = VInt 120.
Proof.
  pose proof (setup_builds_coordinator_from_entry Fixture.stored_entry
                (Fixture.hass_with_yaml (Fixture.Online 1)) (VInt 7) _
                {[ "yaml_config" := HYaml {[ "scan_interval" := VInt 120 ]} ]}
                eq_refl eq_refl eq_refl) as Hsetup.
  cbv zeta in Hsetup.
  destruct Hsetup as (c & rest & Htr & _ & _ & _ & Hsi & _).
  - intros c. rewrite lookup_singleton_eq. discriminate.
  - apply (bool_decide_unpack _). by vm_compute.
  - exists c, rest. split; [exact Htr|exact Hsi].
Defined.

Lemma setup_fails_early_without_side_effects_witness :
  Init.async_setup_entry
    {| entry_id := "e0"; unique_id := None; title := VNone; data := ∅ |}
    (Fixture.hass_on (Fixture.Online 1))
  = (Raise (KeyError "home_id"), Fixture.hass_on (Fixture.Online 1), [])
  /\ result_of (Init.async_setup_entry Fixture.stored_entry
                  (Fixture.hass_on Fixture.Unreachable))
     = Raise (Fixture.ClientError "connection refused").
Proof.
  split.
  - destruct (setup_fails_early_without_side_effects
                {| entry_id := "e0"; unique_id := None; title := VNone;
                   data := ∅ |} (Fixture.hass_on (Fixture.Online 1)))
      as (Hno & _).
    apply Hno. reflexivity.
  - destruct (setup_fails_early_without_side_effects Fixture.stored_entry
                (Fixture.hass_on Fixture.Unreachable)) as (_ & Hraise).
    by rewrite (Hraise (VInt 7) (Fixture.ClientError "connection refused") _
                  eq_refl eq_refl eq_refl).
Defined.

Lemma configure_step_creates_entry_with_defaults_witness :
  exists d,
    ConfigFlow.async_step_configure (Some ∅) Fixture.flow_authorized
      = (Ok (ConfigFlow.CreateEntry (VStr "Cabin") d),
         Fixture.flow_authorized, [])
    /\ d !! "home_id" = Some (VInt 8)
    /\ d !! "token_expiry" = Some (VStr "2026-01-01T00:10:00")
    /\ d !! "scan_interval" = Some (VInt 1800).
Proof.
  destruct (configure_step_creates_entry_with_defaults
              Fixture.flow_authorized ∅ (Fixture.home 8 "Cabin") _
              (VInt 8) (VStr "Cabin")
              fixture_conf_keys_NoDup eq_refl eq_refl eq_refl eq_refl)
    as (d & Hrun & _ & Hid & _ & _ & _ & Hte & Hsi & _).
  - repeat constructor.
  - exists d. split; [exact Hrun|]. split; [exact Hid|].
    split; [exact Hte|exact Hsi].
Defined.


Lemma select_home_picks_first_match_witness :
  ConfigFlow.async_step_select_home (Some {[ "home_id" := VInt 8 ]})
    Fixture.flow_authorized
  = (Ok configure_form,
     ConfigFlow.set_selected_home (Some (Fixture.home 8 "Cabin"))
       Fixture.flow_authorized, [])
  /\ ConfigFlow.async_step_select_home (Some ∅) Fixture.flow_authorized
     = (Raise (KeyError "home_id"), Fixture.flow_authorized, []).
Proof.
  destruct (select_home_picks_first_match Fixture.flow_authorized
              {[ "home_id" := VInt 8 ]}) as (Hfirst & _ & _).
  destruct (select_home_picks_first_match Fixture.flow_authorized ∅)
    as (_ & _ & Hmissing).
  split; [|by apply Hmissing].
  apply (Hfirst (VInt 8) [Fixture.home 7 "Flat"] (Fixture.home 8 "Cabin") []).
  - reflexivity.
  - reflexivity.
  - constructor; [|constructor]. exists (VInt 7). by split.
  - exists (VInt 8). by split.
Defined.

Lemma configure_needs_client_and_home_witness :
  ConfigFlow.async_step_configure (Some ∅)
    (ConfigFlow.__init__ (Fixture.hass_on (Fixture.Online 1)) None)
  = (Ok (ConfigFlow.AbortFlow "unknown"),
     ConfigFlow.__init__ (Fixture.hass_on (Fixture.Online 1)) None, [])
  /\ ConfigFlow.async_step_configure (Some ∅)
       (Fixture.flow_on (Fixture.Online 1) None)
     = (Raise (TypeError "'NoneType' object is not subscriptable"),
        Fixture.flow_on (Fixture.Online 1) None, []).
Proof.
  split.
  - destruct (configure_needs_client_and_home
                (ConfigFlow.__init__ (Fixture.hass_on (Fixture.Online 1)) None)
                ∅) as (Hnone & _).
    by apply Hnone.
  - destruct (configure_needs_client_and_home
                (Fixture.flow_on (Fixture.Online 1) None) ∅)
      as (_ & Hhome & _).
    by eapply Hhome.
Defined.

Lemma auth_steps_without_device_code_witness :
  ConfigFlow.async_step_auth (Some ∅)
    (ConfigFlow.__init__ (Fixture.hass_on (Fixture.Online 1)) None)
  = (Ok (ConfigFlow.ShowForm "auth" ConfigFlow.SchemaEmpty ∅
           (ConfigFlow.auth_placeholders
              (ConfigFlow.__init__ (Fixture.hass_on (Fixture.Online 1))
                 None))),
     ConfigFlow.__init__ (Fixture.hass_on (Fixture.Online 1)) None, []).
Proof.
  destruct (auth_steps_without_device_code
              (ConfigFlow.__init__ (Fixture.hass_on (Fixture.Online 1)) None)
              ∅) as (Hauth & _).
  - by left.
  - exact Hauth.
Defined.

Lemma auth_step_errors_witness :
  result_of (ConfigFlow.async_step_auth (Some ∅)
               (Fixture.flow_on Fixture.Unauthorized None))
  = Ok (ConfigFlow.ShowForm "auth" ConfigFlow.SchemaEmpty
          {[ "base" := "auth_error" ]}
          (ConfigFlow.auth_placeholders
             (Fixture.flow_on Fixture.Unauthorized None))).
Proof.
  pose proof (auth_step_errors (Fixture.flow_on Fixture.Unauthorized None) ∅
                _ eq_refl eq_refl) as Herr.
  cbv zeta in Herr. destruct Herr as (Hpoll & _).
  by rewrite (Hpoll (Fixture.TadoXAuthError "invalid_grant") _ eq_refl).
Defined.

Lemma reauth_confirm_starts_device_auth_witness :
  result_of (ConfigFlow.async_step_reauth_confirm (Some ∅)
               (ConfigFlow.__init__ (Fixture.hass_on Fixture.Unreachable)
                  (Some "e1")))
  = Raise (Fixture.ClientError "connection refused")
  /\ ConfigFlow._verification_uri
       (state_of (ConfigFlow.async_step_reauth_confirm (Some ∅)
                    (ConfigFlow.__init__
                       (Fixture.hass_on (Fixture.Online 1)) (Some "e1"))))
     = VStr "https://login.tado.com/device".
Proof.
  split.
  - pose proof (reauth_confirm_starts_device_auth
                  (ConfigFlow.__init__ (Fixture.hass_on Fixture.Unreachable)
                     (Some "e1")) ∅) as Hstep.
    cbv zeta in Hstep. destruct Hstep as (_ & Hraise).
    by rewrite (Hraise (Fixture.ClientError "connection refused") _ eq_refl).
  - pose proof (reauth_confirm_starts_device_auth
                  (ConfigFlow.__init__ (Fixture.hass_on (Fixture.Online 1))
                     (Some "e1")) ∅) as Hstep.
    cbv zeta in Hstep. destruct Hstep as (Hok & _).
    destruct (Hok _ _ (VStr "dc-1") (VStr "7BQ5ZQ") eq_refl)
      as (_ & _ & Huri & _); [reflexivity..|].
    rewrite Huri. reflexivity.
Defined.

Lemma unload_removes_coordinator_when_platforms_unloaded_witness :
  InitUnload.async_unload_entry Fixture.stored_entry
    (Fixture.hass_set_up (Fixture.Online 1))
  = (Ok true,
     set_hass_data
       (insert "tado_x" (delete "e1" (Fixture.domain_data (Fixture.Online 1))))
       (Fixture.hass_set_up (Fixture.Online 1)), [])
  /\ InitUnload.async_unload_entry Fixture.stored_entry
       (Fixture.hass_set_up Fixture.Unreachable)
     = (Ok false, Fixture.hass_set_up Fixture.Unreachable, [])
  /\ exists k,
       InitUnload.async_unload_entry Fixture.stored_entry
         (Fixture.hass_on (Fixture.Online 1))
       = (Raise (KeyError k), Fixture.hass_on (Fixture.Online 1), []).
Proof.
  split; [|split].
  - pose proof (unload_removes_coordinator_when_platforms_unloaded
                  Fixture.stored_entry
                  (Fixture.hass_set_up (Fixture.Online 1))) as Hun.
    cbv zeta in Hun. destruct Hun as (_ & _ & Hpop & _).
    by destruct (Hpop (Fixture.domain_data (Fixture.Online 1))
                   (HCoordinator (Fixture.coordinator_on (Fixture.Online 1)))
                   eq_refl eq_refl eq_refl) as [Hrun _].
  - pose proof (unload_removes_coordinator_when_platforms_unloaded
                  Fixture.stored_entry
                  (Fixture.hass_set_up Fixture.Unreachable)) as Hun.
    cbv zeta in Hun. destruct Hun as (Hkept & _).
    exact (Hkept eq_refl).
  - pose proof (unload_removes_coordinator_when_platforms_unloaded
                  Fixture.stored_entry
                  (Fixture.hass_on (Fixture.Online 1))) as Hun.
    cbv zeta in Hun. destruct Hun as (_ & _ & _ & Hmissing).
    apply Hmissing; [reflexivity|].
    right. exists ∅. split; reflexivity.
Defined.

Lemma setup_then_unload_restores_hass_data_witness :
  let h1 := state_of (Init.async_setup_entry Fixture.stored_entry
                        (Fixture.hass_on (Fixture.Online 1))) in
  result_of (InitUnload.async_unload_entry Fixture.stored_entry h1) = Ok true
  /\ hass_data (state_of (InitUnload.async_unload_entry
                            Fixture.stored_entry h1))
     = hass_data (Fixture.hass_on (Fixture.Online 1)).
Proof.
  exact (setup_then_unload_restores_hass_data Fixture.stored_entry
           (Fixture.hass_on (Fixture.Online 1)) ∅
           eq_refl eq_refl eq_refl eq_refl).
Defined.

Lemma reload_sets_up_whatever_unload_answers_witness :
  let h := Fixture.hass_set_up Fixture.Unreachable in
  let setup := Init.async_setup_entry Fixture.stored_entry h in
  state_of (InitUnload.async_unload_entry Fixture.stored_entry h) = h
  /\ InitUnload.async_reload_entry Fixture.stored_entry h
     = (match result_of setup with
        | Ok _ => Ok tt
        | Raise e => Raise e
        end, state_of setup, trace_of setup).
Proof.
  intros h setup.
  pose proof (reload_sets_up_whatever_unload_answers Fixture.stored_entry h)
    as Hre.
  cbv zeta in Hre. destruct Hre as (_ & Hok & _ & Hfalse).
  pose proof (Hfalse eq_refl) as Hh. split; [exact Hh|].
  pose proof (Hok false eq_refl) as Hrun. rewrite Hh in Hrun. exact Hrun.
Defined.

Lemma setup_entry_needs_async_setup_witness :
  result_of (Init.async_setup_entry Fixture.stored_entry
               (Fixture.hass_fresh (Fixture.Online 1)))
  = Raise (KeyError "tado_x")
  /\ EvCreateCoordinator (VInt 7)
       ∈ trace_of (Init.async_setup_entry Fixture.stored_entry
                     (state_of (Init.async_setup ∅
                                  (Fixture.hass_fresh (Fixture.Online 1))))).
Proof.
  pose proof (setup_entry_needs_async_setup ∅ Fixture.stored_entry
                (Fixture.hass_fresh (Fixture.Online 1)) (VInt 7) _
                eq_refl eq_refl eq_refl) as (Hraise & Hbuilt).
  split; [by rewrite Hraise|exact Hbuilt].
Defined.

Lemma offset_entities_have_distinct_unique_ids_witness :
  exists entities tr,
    Number.async_setup_entry Fixture.stored_entry
      (Fixture.hass_set_up (Fixture.Online 1))
    = (Ok entities, Fixture.hass_set_up (Fixture.Online 1), tr)
    /\ NoDup (Number._attr_unique_id <$> entities)
    /\ Number._device_serial <$> entities = ["VA1"; "SU1"].
Proof.
  assert (Hserial :
            NoDup (serial_number
                     <$> List.filter Number.supports_offset
                           (devices Fixture.home_data).*2)).
  { apply (bool_decide_unpack _). reflexivity. }
  pose proof (offset_entities_have_distinct_unique_ids Fixture.stored_entry
                (Fixture.hass_set_up (Fixture.Online 1))
                (Fixture.domain_data (Fixture.Online 1))
                (Fixture.coordinator_on (Fixture.Online 1)) Fixture.home_data
                eq_refl eq_refl eq_refl Hserial)
    as (_ & entities & tr & Hrun & Hnd & Hserials).
  exists entities, tr. split; [exact Hrun|]. split; [exact Hnd|].
  exact Hserials.
Defined.

Lemma set_offset_refresh_failure_and_cancellation_witness :
  (let c := Fixture.coordinator_on (Fixture.Online 1) in
   let self := Number.new_TadoXTemperatureOffset c "VA1" in
   trace_of (Number.async_set_native_value (CM := Fixture.stale_coordinators)
               self (2 : @float Fixture.runtime) c)
   = [EvApi "set_device_temperature_offset" [VStr "VA1"; VFloat 2] None;
      EvRequestRefresh (Some (Fixture.TadoXApiError "HTTP 500"));
      EvLog "error"
        "Failed to set temperature offset for device VA1: HTTP 500"])
  /\ (let c := Fixture.cancelled_coordinator in
      let self := Number.new_TadoXTemperatureOffset
                    (H0 := Fixture.cancelled_vendor) c "VA1" in
      trace_of (Number.async_set_native_value
                  (CM := Fixture.cancelled_coordinators)
                  self (2 : @float Fixture.runtime) c)
      = [EvApi "set_device_temperature_offset" [VStr "VA1"; VFloat 2]
           (Some Fixture.CancelledError)]).
Proof.
  split; intros c self.
  - pose proof (set_offset_refresh_failure_and_cancellation
                  (CM := Fixture.stale_coordinators)
                  self (2 : @float Fixture.runtime) c) as Hset.
    cbv zeta in Hset. destruct Hset as (_ & Hfail & _).
    by rewrite (Hfail _ (Fixture.TadoXApiError "HTTP 500") _
                  eq_refl eq_refl).
  - pose proof (set_offset_refresh_failure_and_cancellation
                  (CM := Fixture.cancelled_coordinators)
                  self (2 : @float Fixture.runtime) c) as Hset.
    cbv zeta in Hset. destruct Hset as (_ & _ & Hcancel).
    by rewrite (Hcancel Fixture.CancelledError _ eq_refl eq_refl).
Defined.

Lemma offset_platform_without_coordinator_witness :
  Number.async_setup_entry Fixture.stored_entry
    (Fixture.hass_on (Fixture.Online 1))
  = (Raise (KeyError "e1"), Fixture.hass_on (Fixture.Online 1), []).
Proof.
  destruct (offset_platform_without_coordinator Fixture.stored_entry
              (Fixture.hass_on (Fixture.Online 1))) as (_ & Hmissing & _).
  exact (Hmissing ∅ eq_refl eq_refl).
Defined.
